(** * pymind.training: cost function factory and multi-restart trainer

    Shallow embedding of [src/pymind/training.py] ([create_costfn], its
    closure [costfn], [train] and its closure [flattened_costfn]) together
    with the numpy operations the code applies to [np.matrix] values.

    Conventions.
    - Python exceptions are values of [exn]; a computation that may raise
      returns a [result].  Code that reads or writes the network object or
      prints runs in the monad [M], a state monad over [world] whose
      failures keep the state reached when the exception was raised.
    - The entries of a matrix are elements of an arbitrary type [R] carrying
      the arithmetic of [Scalar]; no law of that arithmetic is assumed, so
      every statement below holds for whatever rounding the operations do.
    - The value [Result.fun] is only ever compared, and is modelled by
      [pyfloat]: the order of IEEE doubles with both infinities and NaN. *)

From Stdlib Require Import String Bool ZArith QArith List Lia.
From Stdlib Require Import Permutation.
Import ListNotations.
Close Scope Q_scope.

Set Implicit Arguments.
Unset Strict Implicit.

(** ** Python exceptions and results *)

Inductive exn_class : Type :=
| ValueError
| IndexError
| ZeroDivisionError
| TypeError
| RuntimeError.

Record exn : Type := Exn { exn_kind : exn_class; exn_msg : string }.

Definition is_ValueError (e : exn) : bool :=
  match exn_kind e with
  | ValueError => true
  | _ => false
  end.

Inductive result (A : Type) : Type :=
| Ok (a : A)
| Raise (e : exn).

Arguments Ok {A} a.
Arguments Raise {A} e.

Definition rbind {A B : Type} (c : result A) (k : A -> result B) : result B :=
  match c with
  | Ok a => k a
  | Raise e => Raise e
  end.

Declare Scope result_scope.
Delimit Scope result_scope with res.
Notation "x <- c ;; k" := (rbind c (fun x => k))
  (at level 61, c at next level, right associativity) : result_scope.
Notation "' p <- c ;; k" := (rbind c (fun p => k))
  (at level 61, p pattern, c at next level, right associativity) : result_scope.

(** ** Python sequences *)

(** [l[i]] for a Python list (or deque) and an integer index: a negative
    index counts from the end, an index out of range raises IndexError. *)
Definition py_getitem {A : Type} (l : list A) (i : Z) : result A :=
  let n := Z.of_nat (length l) in
  let j := if (i <? 0)%Z then (n + i)%Z else i in
  if ((0 <=? j) && (j <? n))%Z
  then match nth_error l (Z.to_nat j) with
       | Some a => Ok a
       | None => Raise (Exn IndexError "list index out of range")
       end
  else Raise (Exn IndexError "list index out of range").

(** [xrange(start, stop, -1)]: start, start-1, ..., stop+1. *)
Definition xrange_down (start stop : Z) : list Z :=
  map (fun k => (start - Z.of_nat k)%Z) (seq 0 (Z.to_nat (start - stop))).

(** [xrange(n)]: 0, 1, ..., n-1 (empty when n <= 0). *)
Definition xrange (n : Z) : list Z :=
  map Z.of_nat (seq 0 (Z.to_nat n)).

(** ** Scalars *)

(** The arithmetic of matrix entries: Python's float operations. *)
Class Scalar (R : Type) : Type := {
  s_zero : R;
  s_one : R;
  s_add : R -> R -> R;
  s_mul : R -> R -> R;
  s_div : R -> R -> R;
  s_of_nat : nat -> R
}.

#[export] Instance Scalar_Q : Scalar Q := {
  s_zero := 0%Q;
  s_one := 1%Q;
  s_add := Qplus;
  s_mul := Qmult;
  s_div := Qdiv;
  s_of_nat := fun n => inject_Z (Z.of_nat n)
}.

(** The order of Python floats, as far as [<] sees it. *)
Inductive pyfloat : Type :=
| NegInf
| Finite (q : Q)
| PosInf
| NaN.

Definition Qltb (p q : Q) : bool :=
  (Qnum p * Zpos (Qden q) <? Qnum q * Zpos (Qden p))%Z.

(** [a < b] on floats: false as soon as one side is NaN. *)
Definition float_lt (a b : pyfloat) : bool :=
  match a, b with
  | NaN, _ | _, NaN => false
  | _, NegInf => false
  | NegInf, _ => true
  | PosInf, _ => false
  | Finite _, PosInf => true
  | Finite p, Finite q => Qltb p q
  end.

(** ** numpy matrices *)

Section Numpy.
Context {R : Type} {SR : Scalar R}.

(** An [np.matrix]: always two-dimensional; [mrows] lists the rows. *)
Record matrix : Type := Mat {
  nrows : nat;
  ncols : nat;
  mrows : list (list R)
}.

Definition shape (A : matrix) : nat * nat := (nrows A, ncols A).

Definition get (A : matrix) (r c : nat) : R :=
  nth c (nth r (mrows A) []) s_zero.

Definition tabulate (nr nc : nat) (f : nat -> nat -> R) : matrix :=
  Mat nr nc (map (fun r => map (fun c => f r c) (seq 0 nc)) (seq 0 nr)).

(** [A.T] *)
Definition transpose (A : matrix) : matrix :=
  tabulate (ncols A) (nrows A) (fun r c => get A c r).

(** [A[:, b:]] *)
Definition slice_cols_from (b : nat) (A : matrix) : matrix :=
  tabulate (nrows A) (ncols A - b) (fun r c => get A r (c + b)).

(** [k * A] for a Python float [k] *)
Definition scale (k : R) (A : matrix) : matrix :=
  tabulate (nrows A) (ncols A) (fun r c => s_mul k (get A r c)).

Definition dot (A B : matrix) (r c : nat) : R :=
  fold_left (fun acc k => s_add acc (s_mul (get A r k) (get B k c)))
            (seq 0 (ncols A)) s_zero.

(** [A * B] for two matrices: the matrix product. *)
Definition matmul (A B : matrix) : result matrix :=
  if ncols A =? nrows B
  then Ok (tabulate (nrows A) (ncols B) (dot A B))
  else Raise (Exn ValueError "shapes not aligned").

(** Broadcasting of one axis: equal lengths, or one of them is 1. *)
Definition bdim (a b : nat) : option nat :=
  if a =? b then Some a
  else if a =? 1 then Some b
  else if b =? 1 then Some a
  else None.

(** Entry of [A] seen through broadcasting: an axis of length 1 is
    repeated. *)
Definition bget (A : matrix) (r c : nat) : R :=
  get A (if nrows A =? 1 then 0 else r) (if ncols A =? 1 then 0 else c).

(** [np.multiply(A, B)]: the elementwise product, with broadcasting. *)
Definition np_multiply (A B : matrix) : result matrix :=
  match bdim (nrows A) (nrows B), bdim (ncols A) (ncols B) with
  | Some nr, Some nc =>
      Ok (tabulate nr nc (fun r c => s_mul (bget A r c) (bget B r c)))
  | _, _ => Raise (Exn ValueError "operands could not be broadcast together")
  end.

(** [G[:, b:] += A]: in-place addition into the columns from [b] on; [A]
    must broadcast to the shape of the slice, which is never resized. *)
Definition iadd_cols_from (b : nat) (G A : matrix) : result matrix :=
  if ((nrows A =? nrows G) || (nrows A =? 1))
     && ((ncols A =? ncols G - b) || (ncols A =? 1))
  then Ok (tabulate (nrows G) (ncols G)
             (fun r c => if c <? b then get G r c
                         else s_add (get G r c) (bget A r (c - b))))
  else Raise (Exn ValueError "non-broadcastable output operand").

(** [np.matrix(v)] for a one-dimensional array [v]: a single row. *)
Definition np_matrix (v : list R) : matrix :=
  Mat 1 (length v) [v].

(** [np.array(A)[0]]: the first row as a one-dimensional array. *)
Definition first_row (A : matrix) : result (list R) :=
  if nrows A =? 0
  then Raise (Exn IndexError "index 0 is out of bounds for axis 0 with size 0")
  else Ok (map (get A 0) (seq 0 (ncols A))).

(** Row-major contents of a matrix. *)
Definition flatten (A : matrix) : list R :=
  concat (map (fun r => map (get A r) (seq 0 (ncols A))) (seq 0 (nrows A))).

End Numpy.

Arguments matrix R : clear implicits.

(** ** The collaborators of the module

    [training.py] consumes the network class, the activation and error
    functions and the helpers of [util]; only what the code calls is
    modelled. *)

(** An activation function object: the code calls its [grad]. *)
Record ActivationFn (R : Type) : Type := {
  act_grad : matrix R -> result (matrix R)
}.

Record Layer (R : Type) : Type := {
  activationfn : ActivationFn R
}.

(** An error function object: the code calls its [grad(h, y)]. *)
Record ErrorFn (R : Type) : Type := {
  err_grad : matrix R -> matrix R -> result (matrix R)
}.

(** The attributes of a network object that the code reads and writes. *)
Record NeuralNetwork (R : Type) : Type := {
  weights : list (matrix R);
  bias : bool;
  layers : list (Layer R)
}.

(** [nn.weights], for use where a variable is called [weights]. *)
Definition weights_of {R : Type} (nn : NeuralNetwork R) : list (matrix R) :=
  weights nn.

Definition with_weights {R : Type} (ws : list (matrix R))
    (nn : NeuralNetwork R) : NeuralNetwork R :=
  {| weights := ws; bias := bias nn; layers := layers nn |}.

(** The methods of the network class, which is not part of this module:
    [dimensions] (the per-layer weight shapes), [resetWeights] (which draws
    from a random source kept in the external state [E]) and
    [calculateCost] (the forward pass, returning [(z, a, cost)]). *)
Class NetworkClass (R E : Type) : Type := {
  dimensions : NeuralNetwork R -> list (nat * nat);
  resetWeights : NeuralNetwork R -> E -> NeuralNetwork R * E;
  calculateCost :
    NeuralNetwork R -> matrix R -> matrix R -> ErrorFn R -> R ->
    result (list (matrix R) * list (matrix R) * R)
}.

(** The result object of a minimizer. *)
Record Result (R : Type) : Type := {
  success : bool;
  x : list R;
  fun_ : pyfloat
}.

(** ** State *)

(** What a call can change: the network object, standard output, and the
    state [E] of the external collaborators (random source, minimizer). *)
Record world (R E : Type) : Type := {
  nnet : NeuralNetwork R;
  stdout : list string;
  ext : E
}.

Definition M (R E A : Type) : Type := world R E -> result A * world R E.

Section Monad.
Context {R E : Type}.

Definition ret {A : Type} (a : A) : M R E A := fun w => (Ok a, w).

Definition bind {A B : Type} (c : M R E A) (k : A -> M R E B) : M R E B :=
  fun w =>
    match c w with
    | (Ok a, w') => k a w'
    | (Raise e, w') => (Raise e, w')
    end.

Definition raise {A : Type} (e : exn) : M R E A := fun w => (Raise e, w).

Definition lift {A : Type} (c : result A) : M R E A := fun w => (c, w).

Definition get_nnet : M R E (NeuralNetwork R) := fun w => (Ok (nnet w), w).

(** [nnet.weights = ws] *)
Definition set_weights (ws : list (matrix R)) : M R E unit :=
  fun w => (Ok tt, {| nnet := with_weights ws (nnet w);
                      stdout := stdout w; ext := ext w |}).

(** [print s] *)
Definition print (s : string) : M R E unit :=
  fun w => (Ok tt, {| nnet := nnet w; stdout := stdout w ++ [s];
                      ext := ext w |}).

(** [try: body  except ValueError: handler e], where the handler may end
    in a bare [raise]. *)
Definition try_except_ValueError {A : Type}
    (body : M R E A) (handler : exn -> M R E A) : M R E A :=
  fun w =>
    match body w with
    | (Ok a, w') => (Ok a, w')
    | (Raise e, w') =>
        if is_ValueError e then handler e w' else (Raise e, w')
    end.

End Monad.

Declare Scope monad_scope.
Delimit Scope monad_scope with monad.
Notation "x <- c ;; k" := (bind c (fun x => k))
  (at level 61, c at next level, right associativity) : monad_scope.
Notation "' p <- c ;; k" := (bind c (fun p => k))
  (at level 61, p pattern, c at next level, right associativity) : monad_scope.
Notation "c ;;; k" := (bind c (fun _ => k))
  (at level 61, right associativity) : monad_scope.

(** ** util *)

Section Util.
Context {R : Type} {SR : Scalar R}.

(** Modelled from the spec: [util.unroll_matrices], which is not part of
    this module.  The spec has it unroll all matrices in layer order,
    row-major within each matrix; the code transposes its value and takes
    row 0, so the value is a column. *)
Definition unroll_matrices (ms : list (matrix R)) : result (matrix R) :=
  let v := concat (map flatten ms) in
  Ok (Mat (length v) 1 (map (fun e => [e]) v)).

Fixpoint reshape_list (v : list R) (dims : list (nat * nat))
    : list (matrix R) :=
  match dims with
  | [] => []
  | (r, c) :: dims' =>
      tabulate r c (fun i j => nth (i * c + j) v s_zero)
      :: reshape_list (skipn (r * c) v) dims'
  end.

Definition total_size (dims : list (nat * nat)) : nat :=
  fold_right (fun d acc => fst d * snd d + acc) 0 dims.

(** Modelled from the spec: [util.reshape_vector], which is not part of
    this module.  The spec has it cut a flat vector into per-layer
    matrices of the shapes [dims], the inverse of unrolling for matching
    shapes; a vector of another size is a dimension mismatch. *)
Definition reshape_vector (vec : matrix R) (dims : list (nat * nat))
    : result (list (matrix R)) :=
  if nrows vec * ncols vec =? total_size dims
  then Ok (reshape_list (flatten vec) dims)
  else Raise (Exn ValueError "total size of new array must be unchanged").

End Util.

(** ** training.py *)

Section Training.
Context {R E : Type} {SR : Scalar R} {NC : NetworkClass R E}.

Local Open Scope Z_scope.

(** What [costfn] returns: [cost], or [(cost, grads)]. *)
Inductive costfn_out : Type :=
| CostOnly (cost : R)
| CostGrads (cost : R) (grads : list (matrix R)).

(** An entry of the deque [d] used as a matrix; the filler [None] is not
    one. *)
Definition as_matrix (o : option (matrix R)) : result (matrix R) :=
  match o with
  | Some A => Ok A
  | None => Raise (Exn TypeError "unsupported operand type: NoneType")
  end.

(** [a / m] with [m = float(X.shape[1])]: Python's float division raises
    on a zero divisor, and [m] is zero exactly when [X] has no column. *)
Definition div_by_m (X : matrix R) (a : R) : result R :=
  if (ncols X =? 0)%nat
  then Raise (Exn ZeroDivisionError "float division by zero")
  else Ok (s_div a (s_of_nat (ncols X))).

Section Costfn.
Variables (X y : matrix R) (learn_rate : R) (errfn : ErrorFn R).

(** The body of [for i in xrange(len(nnet.layers) - 2, 0, -1)]; the
    deque [d] is a list whose head is [d[0]], [appendleft] is cons. *)
Fixpoint backprop_loop (nn : NeuralNetwork R) (weights z : list (matrix R))
    (b : nat) (idx : list Z) (d : list (option (matrix R)))
    : result (list (option (matrix R))) :=
  match idx with
  | [] => Ok d
  | i :: idx' =>
      (o <- py_getitem d 0 ;;
       layer <- py_getitem (layers nn) i ;;
       weight <- py_getitem weights i ;;
       zi <- py_getitem z i ;;
       g <- act_grad (activationfn layer) zi ;;
       prevD <- as_matrix o ;;
       t <- matmul (transpose (slice_cols_from b weight)) prevD ;;
       di <- np_multiply g t ;;
       backprop_loop nn weights z b idx' (Some di :: d))%res
  end.

(** "Calculate deltas": the seed, the loop over the hidden layers, and
    the filler for [d[0]]. *)
Definition deltas (nn : NeuralNetwork R) (weights z : list (matrix R))
    (h : matrix R) (b : nat) : result (list (option (matrix R))) :=
  (last_layer <- py_getitem (layers nn) (-1) ;;
   z_last <- py_getitem z (-1) ;;
   g <- act_grad (activationfn last_layer) z_last ;;
   eg <- err_grad errfn h y ;;
   seed <- np_multiply g eg ;;
   d <- backprop_loop nn weights z b
          (xrange_down (Z.of_nat (length (layers nn)) - 2) 0)
          [Some seed] ;;
   Ok (None :: d))%res.

(** The body of [for i in xrange(len(nnet.weights))], appending to
    [grads]. *)
Fixpoint gradients_loop (weights a : list (matrix R))
    (d : list (option (matrix R))) (b : nat) (idx : list Z)
    (grads : list (matrix R)) : result (list (matrix R)) :=
  match idx with
  | [] => Ok grads
  | i :: idx' =>
      (inv_m <- div_by_m X s_one ;;
       o <- py_getitem d (i + 1) ;;
       dn <- as_matrix o ;;
       ai <- py_getitem a i ;;
       unreg_grad <- matmul (scale inv_m dn) (transpose ai) ;;
       lr_m <- div_by_m X learn_rate ;;
       wi <- py_getitem weights i ;;
       let reg_grad := scale lr_m (slice_cols_from b wi) in
       grad <- iadd_cols_from b unreg_grad reg_grad ;;
       gradients_loop weights a d b idx' (grads ++ [grad]))%res
  end.

(** "Calculate gradients". *)
Definition gradients (nn : NeuralNetwork R) (weights a : list (matrix R))
    (d : list (option (matrix R))) (b : nat) : result (list (matrix R)) :=
  gradients_loop weights a d b
    (xrange (Z.of_nat (length (weights_of nn)))) [].

(** What the [try] block computes once [weights] is installed: only
    reads of the network [nn] remain. *)
Definition evaluate (computeGrad : bool) (nn : NeuralNetwork R)
    (weights : list (matrix R)) : result costfn_out :=
  let b := if bias nn then 1%nat else 0%nat in
  ('(z, a, cost) <- calculateCost nn X y errfn learn_rate ;;
   h <- py_getitem a (-1) ;;
   if computeGrad then
     d <- deltas nn weights z h b ;;
     grads <- gradients nn weights a d b ;;
     Ok (CostGrads cost grads)
   else Ok (CostOnly cost))%res.

(** The [try] block of [costfn]. *)
Definition costfn_try (computeGrad : bool) (weights : list (matrix R))
    : M R E costfn_out :=
  (set_weights weights ;;;
   nn <- get_nnet ;;
   lift (evaluate computeGrad nn weights))%monad.

Definition diagnostic : string :=
  "Calculating cost of a neural network failed. Most likely due to dimension mismatch.".

(** [create_costfn(nnet, X, y, learn_rate, errfn, computeGrad)]: the
    closure [costfn]. *)
Definition create_costfn (computeGrad : bool)
    : list (matrix R) -> M R E costfn_out :=
  fun weights =>
    try_except_ValueError (costfn_try computeGrad weights)
      (fun e => (print diagnostic ;;; raise e)%monad).

End Costfn.

(** A minimizer: called with the function to minimize and the initial
    vector, it returns a result object. *)
Definition Minimizer : Type :=
  (list R -> M R E (R * list R)) -> list R -> M R E (Result R).

(** [cost, grad = out] *)
Definition unpack (out : costfn_out) : result (R * list (matrix R)) :=
  match out with
  | CostGrads cost grads => Ok (cost, grads)
  | CostOnly _ => Raise (Exn TypeError "'float' object is not iterable")
  end.

(** The closure [flattened_costfn] of [train], with the variables it
    captures. *)
Definition flattened_costfn
    (costfn : list (matrix R) -> M R E costfn_out)
    (dims : list (nat * nat)) (weights : list R) : M R E (R * list R) :=
  (ws <- lift (reshape_vector (np_matrix weights) dims) ;;
   out <- costfn ws ;;
   ' (cost, grad) <- lift (unpack out) ;;
   u <- lift (unroll_matrices grad) ;;
   g <- lift (first_row (transpose u)) ;;
   ret (cost, g))%monad.

(** [nnet.resetWeights()] *)
Definition reset_weights : M R E unit :=
  fun w =>
    let (nn, e) := resetWeights (nnet w) (ext w) in
    (Ok tt, {| nnet := nn; stdout := stdout w; ext := e |}).

(** One restart, up to the call of the minimizer. *)
Definition restart (fc : list R -> M R E (R * list R))
    (minimizer : Minimizer) : M R E (Result R) :=
  (reset_weights ;;;
   nn <- get_nnet ;;
   u <- lift (unroll_matrices (weights nn)) ;;
   initial_weights <- lift (first_row (transpose u)) ;;
   minimizer fc initial_weights)%monad.

(** The loop state [(best_result, min_error)] after seeing [result]. *)
Definition keep_best (st : option (Result R) * pyfloat) (result : Result R)
    : option (Result R) * pyfloat :=
  if success result && float_lt (fun_ result) (snd st)
  then (Some result, fun_ result)
  else st.

(** [n] iterations of the restart loop from the loop state [st]. *)
Fixpoint restart_loop (fc : list R -> M R E (R * list R))
    (minimizer : Minimizer) (n : nat) (st : option (Result R) * pyfloat)
    : M R E (option (Result R) * pyfloat) :=
  match n with
  | O => ret st
  | S n' =>
      (result <- restart fc minimizer ;;
       restart_loop fc minimizer n' (keep_best st result))%monad
  end.

(** [train(nnet, X, y, learn_rate, errfn, minimizer, iterations)] *)
Definition train (X y : matrix R) (learn_rate : R) (errfn : ErrorFn R)
    (minimizer : Minimizer) (iterations : Z) : M R E (option (Result R)) :=
  let costfn := create_costfn X y learn_rate errfn true in
  (nn <- get_nnet ;;
   let dims := dimensions nn in
   let fc := flattened_costfn costfn dims in
   st <- restart_loop fc minimizer (Z.to_nat iterations) (None, PosInf) ;;
   let best_result := fst st in
   match best_result with
   | Some r =>
       min_weights <- lift (reshape_vector (np_matrix (x r)) dims) ;;
       set_weights min_weights
   | None => ret tt
   end ;;;
   ret best_result)%monad.

End Training.

(** ** Concrete collaborators

    A small network class over exact rationals, with identity activations
    and the squared error, and two minimizers: one that replays a fixed
    sequence of results, one that evaluates the function once.  They are
    the inputs at which the statements below are run. *)

Module Fixture.

Definition ones (nr nc : nat) : matrix Q := tabulate nr nc (fun _ _ => 1%Q).

Definition zeros (nr nc : nat) : matrix Q := tabulate nr nc (fun _ _ => 0%Q).

(** Identity activation: its derivative is 1 everywhere. *)
Definition identity : ActivationFn Q :=
  {| act_grad := fun z => Ok (ones (nrows z) (ncols z)) |}.

(** Squared error: the derivative with respect to [h] is [h - y]. *)
Definition squaredError : ErrorFn Q :=
  {| err_grad := fun h y =>
       if (nrows h =? nrows y) && (ncols h =? ncols y)
       then Ok (tabulate (nrows h) (ncols h)
                  (fun r c => (get h r c - get y r c)%Q))
       else Raise (Exn ValueError "operands could not be broadcast together")
  |}.

(** [A] with a row of ones on top when the network has a bias unit. *)
Definition add_bias (b : bool) (A : matrix Q) : matrix Q :=
  if b
  then tabulate (S (nrows A)) (ncols A)
         (fun r c => match r with O => 1%Q | S r' => get A r' c end)
  else A.

Definition msum (A : matrix Q) : Q :=
  fold_left Qplus (flatten A) 0%Q.

Definition msquare (A : matrix Q) : matrix Q :=
  tabulate (nrows A) (ncols A) (fun r c => (get A r c * get A r c)%Q).

(** Forward pass with identity activations: [z[0] = X],
    [z[k+1] = W[k] * a[k]], and [a[k]] is [z[k]] with the bias row, the
    last one without. *)
Fixpoint forward (b : bool) (ws : list (matrix Q)) (zk : matrix Q)
    : result (list (matrix Q) * list (matrix Q)) :=
  match ws with
  | [] => Ok ([zk], [zk])
  | w :: ws' =>
      let ak := add_bias b zk in
      (zn <- matmul w ak ;;
       ' (zs, acts) <- forward b ws' zn ;;
       Ok (zk :: zs, ak :: acts))%res
  end.

Definition cost_of (nn : NeuralNetwork Q) (h y : matrix Q) (learn_rate : Q)
    : result Q :=
  if (nrows h =? nrows y) && (ncols h =? ncols y)
  then
    if ncols y =? 0
    then Raise (Exn ZeroDivisionError "float division by zero")
    else
      let m := inject_Z (Z.of_nat (ncols y)) in
      let diff := tabulate (nrows h) (ncols h)
                    (fun r c => (get h r c - get y r c)%Q) in
      let reg := fold_left Qplus
                   (map (fun w => msum (msquare
                      (slice_cols_from (if bias nn then 1 else 0) w)))
                      (weights nn)) 0%Q in
      Ok ((msum (msquare diff) / (2 * m) + learn_rate * reg / (2 * m))%Q)
  else Raise (Exn ValueError "operands could not be broadcast together").

Definition calculateCost_fixture (nn : NeuralNetwork Q) (X y : matrix Q)
    (errfn : ErrorFn Q) (learn_rate : Q)
    : result (list (matrix Q) * list (matrix Q) * Q) :=
  (' (z, a) <- forward (bias nn) (weights nn) X ;;
   h <- py_getitem a (-1) ;;
   cost <- cost_of nn h y learn_rate ;;
   Ok (z, a, cost))%res.

#[export] Instance network_class (E : Type) : NetworkClass Q E := {
  dimensions := fun nn => map shape (weights nn);
  resetWeights := fun nn e =>
    (with_weights (map (fun w => zeros (nrows w) (ncols w)) (weights nn)) nn,
     e);
  calculateCost := calculateCost_fixture
}.

(** A minimizer that replays the results queued in the external state. *)
Definition replay : @Minimizer Q (list (Result Q)) :=
  fun _ _ w =>
    match ext w with
    | r :: rest =>
        (Ok r, {| nnet := nnet w; stdout := stdout w; ext := rest |})
    | [] => (Raise (Exn RuntimeError "no result left"), w)
    end.

(** A minimizer that evaluates the function once, at the initial vector,
    and reports that point. *)
Definition probe : @Minimizer Q unit :=
  fun fc v =>
    (' (cost, _) <- fc v ;;
     ret {| success := true; x := v; fun_ := Finite cost |})%monad.

Definition mat (rows : list (list Q)) : matrix Q :=
  Mat (length rows) (length (hd [] rows)) rows.

(** Two inputs, two hidden units, one output, with bias units. *)
Definition net3 : NeuralNetwork Q :=
  {| weights := [ mat [[1; 2; 3]; [4; 5; 6]]%Q ; mat [[1; -1; 2]]%Q ];
     bias := true;
     layers := [ {| activationfn := identity |};
                 {| activationfn := identity |};
                 {| activationfn := identity |} ] |}.

Definition X3 : matrix Q := mat [[1; 0]; [2; 1]]%Q.
Definition y3 : matrix Q := mat [[1; 2]]%Q.

Definition W3 : list (matrix Q) :=
  [ mat [[0; 1; 1]; [1; 0; 2]]%Q ; mat [[2; 1; 1]]%Q ].

(** One input, one output, no bias: a single 1x1 weight. *)
Definition net1 : NeuralNetwork Q :=
  {| weights := [ mat [[3]]%Q ];
     bias := false;
     layers := [ {| activationfn := identity |};
                 {| activationfn := identity |} ] |}.

Definition X1 : matrix Q := mat [[1]]%Q.
Definition y1 : matrix Q := mat [[1]]%Q.

Definition world_of {E : Type} (nn : NeuralNetwork Q) (e : E) : world Q E :=
  {| nnet := nn; stdout := []; ext := e |}.

(** The forward pass of [net3] carrying the weights [W3] on the dataset
    [(X3, y3)], and what [costfn] computes there. *)
Definition z3 : list (matrix Q) :=
  Eval vm_compute in
    match forward true W3 X3 with Ok (z, _) => z | Raise _ => [] end.

Definition a3 : list (matrix Q) :=
  Eval vm_compute in
    match forward true W3 X3 with Ok (_, a) => a | Raise _ => [] end.

Definition h3 : matrix Q := Eval vm_compute in last a3 (zeros 0 0).

Definition d3 : list (option (matrix Q)) :=
  Eval vm_compute in
    match deltas y3 squaredError (with_weights W3 net3) W3 z3 h3 1 with
    | Ok d => d
    | Raise _ => []
    end.

Definition cost3 : Q :=
  Eval vm_compute in
    match cost_of (with_weights W3 net3) h3 y3 1%Q with
    | Ok c => c
    | Raise _ => 0%Q
    end.

Definition grads3 : list (matrix Q) :=
  Eval vm_compute in
    match gradients X3 1%Q (with_weights W3 net3) W3 a3 d3 1 with
    | Ok g => g
    | Raise _ => []
    end.

(** Results for the replaying minimizer. *)
Definition r_failed : Result Q :=
  {| success := false; x := [1%Q]; fun_ := Finite 1 |}.
Definition r_first : Result Q :=
  {| success := true; x := [2%Q]; fun_ := Finite 2 |}.
Definition r_tie : Result Q :=
  {| success := true; x := [3%Q]; fun_ := Finite 2 |}.
Definition r_inf : Result Q :=
  {| success := true; x := [5%Q]; fun_ := PosInf |}.

End Fixture.

(** ** Vocabulary of the statements *)

(** The world after [nnet.weights = ws]. *)
Definition installed {R E : Type} (ws : list (matrix R)) (w : world R E)
    : world R E :=
  {| nnet := with_weights ws (nnet w); stdout := stdout w; ext := ext w |}.

(** The world after [print s]. *)
Definition logged {R E : Type} (s : string) (w : world R E) : world R E :=
  {| nnet := nnet w; stdout := stdout w ++ [s]; ext := ext w |}.

(** The spec's [unroll]: the flat vector of all entries, in layer order and
    row-major within each matrix. *)
Definition unroll {R : Type} {SR : Scalar R} (ms : list (matrix R)) : list R :=
  concat (map flatten ms).

Section BackpropVocabulary.
Context {R : Type} {SR : Scalar R}.
Variables (nn : NeuralNetwork R) (weights z : list (matrix R)) (b : nat).

(** [seed] is [activation_grad(z[-1])] multiplied elementwise with
    [error_grad(h, y)], for the activation of the last layer. *)
Definition delta_seed (errfn : ErrorFn R) (h y seed : matrix R) : Prop :=
  exists last_layer z_last g eg,
    py_getitem (layers nn) (-1) = Ok last_layer
    /\ py_getitem z (-1) = Ok z_last
    /\ act_grad (activationfn last_layer) z_last = Ok g
    /\ err_grad errfn h y = Ok eg
    /\ np_multiply g eg = Ok seed.

(** [di] is [activation_grad(z[i])] multiplied elementwise with
    [weights[i][:, b:].T * dn], for the activation of layer [i]. *)
Definition delta_step (i : Z) (dn di : matrix R) : Prop :=
  exists layer weight zi g t,
    py_getitem (layers nn) i = Ok layer
    /\ py_getitem weights i = Ok weight
    /\ py_getitem z i = Ok zi
    /\ act_grad (activationfn layer) zi = Ok g
    /\ matmul (transpose (slice_cols_from b weight)) dn = Ok t
    /\ np_multiply g t = Ok di.

(** [delta_chain seed i d]: the deque [d] holds the deltas of the layers
    [i], [i+1], ... in this order, the last one is [seed], and each of the
    others comes from its successor by one backward step. *)
Inductive delta_chain (seed : matrix R)
    : Z -> list (option (matrix R)) -> Prop :=
| chain_seed (i : Z) : delta_chain seed i [Some seed]
| chain_step (i : Z) (dn di : matrix R) (rest : list (option (matrix R))) :
    delta_chain seed (i + 1) (Some dn :: rest) ->
    delta_step i dn di ->
    delta_chain seed i (Some di :: Some dn :: rest).

End BackpropVocabulary.

Section GradientVocabulary.
Context {R : Type} {SR : Scalar R}.

(** The contract of an activation gradient: the shape of its argument. *)
Definition act_shape_preserving (f : ActivationFn R) : Prop :=
  forall z g, act_grad f z = Ok g -> shape g = shape z.

(** The contract of an error gradient: the shape of the hypothesis. *)
Definition err_shape_preserving (errfn : ErrorFn R) : Prop :=
  forall h y g, err_grad errfn h y = Ok g -> shape g = shape h.

(** The contract of the forward pass, on the rows: [z] and [a] have one
    entry per layer; [z[i+1]] has the rows of [weights[i]], [a[i]] has as
    many rows as [weights[i]] has columns, that is the rows of [z[i]] and
    the bias unit; the hypothesis [a[-1]] has the rows of [z[-1]]. *)
Fixpoint conforms (b : nat) (weights z a : list (matrix R)) : Prop :=
  match weights, z, a with
  | [], [z_last], [h] => nrows h = nrows z_last
  | wi :: weights', zi :: ((zn :: _) as z'), ai :: a' =>
      nrows zn = nrows wi
      /\ nrows ai = ncols wi
      /\ nrows ai = nrows zi + b
      /\ conforms b weights' z' a'
  | _, _, _ => False
  end.

Variables (X : matrix R) (learn_rate : R).

(** [(1. / m) * dn * ai.T] *)
Definition unreg_grad (dn ai : matrix R) : result (matrix R) :=
  matmul (scale (s_div s_one (s_of_nat (ncols X))) dn) (transpose ai).

(** [(learn_rate / m) * wi[:, b:]] *)
Definition reg_grad (b : nat) (wi : matrix R) : matrix R :=
  scale (s_div learn_rate (s_of_nat (ncols X))) (slice_cols_from b wi).

(** [G] is the gradient of weight layer [i]: the unregularized term with
    the regularized term added into the columns from [b] on. *)
Definition layer_gradient (weights a : list (matrix R))
    (d : list (option (matrix R))) (b : nat) (i : Z) (G : matrix R) : Prop :=
  exists dn ai wi unreg,
    py_getitem d (i + 1) = Ok (Some dn)
    /\ py_getitem a i = Ok ai
    /\ py_getitem weights i = Ok wi
    /\ ncols X <> 0
    /\ unreg_grad dn ai = Ok unreg
    /\ iadd_cols_from b unreg (reg_grad b wi) = Ok G.

End GradientVocabulary.

Section TrainerVocabulary.
Context {R E : Type} {SR : Scalar R} {NC : NetworkClass R E}.

(** The results the minimizer returns during [n] restarts, in order. *)
Fixpoint restart_trace (fc : list R -> M R E (R * list R))
    (minimizer : Minimizer) (n : nat) : M R E (list (Result R)) :=
  match n with
  | O => ret []
  | S n' =>
      (r <- restart fc minimizer ;;
       rs <- restart_trace fc minimizer n' ;;
       ret (r :: rs))%monad
  end.

(** The loop invariant on [(best_result, min_error)], given the results
    [rs] seen so far. *)
Definition loop_invariant (rs : list (Result R))
    (st : option (Result R) * pyfloat) : Prop :=
  (fst st = None /\ snd st = PosInf)
  \/ (exists r, fst st = Some r /\ In r rs /\ success r = true
                /\ snd st = fun_ r).

(** A result that can become the best one: successful, with a cost below
    the initial [min_error]. *)
Definition candidate (r : Result R) : bool :=
  success r && float_lt (fun_ r) PosInf.

(** [res] is the first of the results [rs] that satisfy [eligible] and
    whose [fun] is smallest among them, or [None] when no result satisfies
    [eligible]. *)
Definition first_smallest (eligible : Result R -> bool)
    (rs : list (Result R)) (res : option (Result R)) : Prop :=
  match res with
  | None => forall r, In r rs -> eligible r = false
  | Some r =>
      exists before after,
        rs = before ++ r :: after
        /\ eligible r = true
        /\ (forall r', In r' before -> eligible r' = true ->
                       float_lt (fun_ r) (fun_ r') = true)
        /\ (forall r', In r' after -> eligible r' = true ->
                       float_lt (fun_ r') (fun_ r) = false)
  end.

(** The adapter that [train], entered in the world [w], hands to the
    minimizer: [dimensions] is read once, in [w]. *)
Definition adapter_of (X y : matrix R) (learn_rate : R) (errfn : ErrorFn R)
    (w : world R E) : list R -> M R E (R * list R) :=
  flattened_costfn (create_costfn X y learn_rate errfn true)
    (dimensions (nnet w)).

(** The loop state agrees with the selection among the results seen. *)
Definition tracks (rs : list (Result R))
    (st : option (Result R) * pyfloat) : Prop :=
  snd st = match fst st with Some r => fun_ r | None => PosInf end
  /\ first_smallest candidate rs (fst st).

End TrainerVocabulary.

(** ** Replayed runs

    [train] on the network [net1] with the minimizer that replays [queue],
    and the results its restarts see. *)

Definition replay_class : NetworkClass Q (list (Result Q)) :=
  Fixture.network_class (list (Result Q)).

Definition replay_train (queue : list (Result Q)) (iterations : Z)
    : result (option (Result Q)) * world Q (list (Result Q)) :=
  train (NC := replay_class) Fixture.X1 Fixture.y1 0%Q Fixture.squaredError
    Fixture.replay iterations (Fixture.world_of Fixture.net1 queue).

Definition replay_trace (queue : list (Result Q)) (n : nat)
    : result (list (Result Q)) * world Q (list (Result Q)) :=
  restart_trace (NC := replay_class)
    (adapter_of (NC := replay_class) Fixture.X1 Fixture.y1 0%Q
       Fixture.squaredError (Fixture.world_of Fixture.net1 queue))
    Fixture.replay n (Fixture.world_of Fixture.net1 queue).

(** ** test/nntrainer_test.py *)

(** What [computeNumericalGradient] computes with beyond [Scalar]: the
    subtraction of floats, and the division of a difference of costs, which
    raises on a zero divisor when the costs are Python floats and does not
    when they are numpy scalars. *)
Class GradCheckArith (R : Type) : Type := {
  s_sub : R -> R -> R;
  cost_quotient : R -> R -> result R
}.

#[export] Instance GradCheckArith_Q : GradCheckArith Q := {
  s_sub := Qminus;
  cost_quotient := fun a b =>
    if Qeq_bool b 0
    then Raise (Exn ZeroDivisionError "float division by zero")
    else Ok (Qdiv a b)
}.

(** [a[i] = v] for a one-dimensional array; the code only does it at an
    index in range. *)
Fixpoint array_set {A : Type} (i : nat) (v : A) (a : list A) : list A :=
  match a, i with
  | [], _ => []
  | _ :: a', O => v :: a'
  | u :: a', S i' => u :: array_set i' v a'
  end.

Section NumericalGradient.
Context {R E G : Type} {SR : Scalar R} {GA : GradCheckArith R}.

(** The body of [for i in xrange(wsize)]: the caller's array [weights] and
    the local array [grd] are both written in place; the arrays reached
    are returned on failure too, since the caller keeps [weights].
    [costFn] is handed the array and is taken not to write into it (the
    adapter of [train] copies it with [np.matrix]). *)
Fixpoint numgrad_loop (costFn : list R -> M R E (R * G)) (e : R)
    (idx : list Z) (weights grd : list R) (w0 : world R E)
    : result unit * (list R * list R) * world R E :=
  match idx with
  | [] => (Ok tt, (weights, grd), w0)
  | iz :: idx' =>
      let i := Z.to_nat iz in
      let w := nth i weights s_zero in
      let w_inc := s_add w e in
      let w_dec := s_sub w e in
      let weights1 := array_set i w_inc weights in
      match costFn weights1 w0 with
      | (Raise ex, w1) => (Raise ex, (weights1, grd), w1)
      | (Ok (c_inc, _), w1) =>
          let weights2 := array_set i w_dec weights1 in
          match costFn weights2 w1 with
          | (Raise ex, w2) => (Raise ex, (weights2, grd), w2)
          | (Ok (c_dec, _), w2) =>
              match cost_quotient (s_sub c_inc c_dec)
                      (s_mul (s_of_nat 2) e) with
              | Raise ex => (Raise ex, (weights2, grd), w2)
              | Ok q =>
                  numgrad_loop costFn e idx'
                    (array_set i w weights2) (array_set i q grd) w2
              end
          end
      end
  end.

(** [np.empty(n)]: an array of [n] entries whose contents [junk] are
    whatever the memory held. *)
Definition np_empty (junk : nat -> R) (n : nat) : list R :=
  map junk (seq 0 n).

(** [computeNumericalGradient(costFn, weights, e)]: the value returned, the
    caller's array after the call, and the state reached. *)
Definition computeNumericalGradient (junk : nat -> R)
    (costFn : list R -> M R E (R * G)) (weights : list R) (e : R)
    (w0 : world R E) : result (matrix R) * list R * world R E :=
  let wsize := length weights in
  let grd := np_empty junk wsize in
  match numgrad_loop costFn e (xrange (Z.of_nat wsize)) weights grd w0 with
  | (Ok _, (weights', grd'), w') =>
      (Ok (Mat wsize 1 (map (fun g => [g]) grd')), weights', w')
  | (Raise ex, (weights', _), w') => (Raise ex, weights', w')
  end.

(** [q] is the central difference at index [i]: the costs returned by two
    consecutive calls of [costFn], at [weights] with entry [i] raised and
    lowered by [e], subtracted and divided by [2*e]. *)
Definition central_difference (costFn : list R -> M R E (R * G)) (e : R)
    (weights : list R) (i : nat) (q : R) : Prop :=
  exists wa c_inc g1 wb c_dec g2 wc,
    costFn (array_set i (s_add (nth i weights s_zero) e) weights) wa
    = (Ok (c_inc, g1), wb)
    /\ costFn (array_set i (s_sub (nth i weights s_zero) e) weights) wb
       = (Ok (c_dec, g2), wc)
    /\ cost_quotient (s_sub c_inc c_dec) (s_mul (s_of_nat 2) e) = Ok q.

End NumericalGradient.

(** ** Gradient checks that are run

    The adapter of [train] for the network [net1], a cost that is a
    function of the vector alone, and the checks of both with [e = 0.01]. *)

Definition gradcheck_adapter : list Q -> M Q unit (Q * list Q) :=
  flattened_costfn
    (create_costfn (NC := Fixture.network_class unit) Fixture.X1 Fixture.y1
       0%Q Fixture.squaredError true)
    [(1, 1)].

Definition gradcheck_run (v : list Q)
    : result (matrix Q) * list Q * world Q unit :=
  computeNumericalGradient (fun _ => 0%Q) gradcheck_adapter v (1 # 100)%Q
    (Fixture.world_of Fixture.net1 tt).

Definition sum_squares (v : list Q) : Q :=
  fold_left Qplus (map (fun a => (a * a)%Q) v) 0%Q.

Definition sum_squares_cost : list Q -> M Q unit (Q * list Q) :=
  fun v => ret (sum_squares v, map (fun a => (2 * a)%Q) v).

Definition gradcheck_grad (v : list Q) : matrix Q :=
  match fst (fst (gradcheck_run v)) with
  | Ok g => g
  | Raise _ => Mat 0 0 []
  end.

Definition sum_squares_run (v : list Q)
    : result (matrix Q) * list Q * world Q unit :=
  computeNumericalGradient (fun _ => 0%Q) sum_squares_cost v (1 # 100)%Q
    (Fixture.world_of Fixture.net1 tt).

Definition sum_squares_grad (v : list Q) : matrix Q :=
  match fst (fst (sum_squares_run v)) with
  | Ok g => g
  | Raise _ => Mat 0 0 []
  end.

(** A network class whose cost is a plain sum, so that its forward pass
    returns on a dataset without examples. *)
Definition calculateCost_sum (nn : NeuralNetwork Q) (X y : matrix Q)
    (errfn : ErrorFn Q) (learn_rate : Q)
    : result (list (matrix Q) * list (matrix Q) * Q) :=
  (' (z, a) <- Fixture.forward (bias nn) (weights nn) X ;;
   h <- py_getitem a (-1) ;;
   Ok (z, a, Fixture.msum (Fixture.msquare h)))%res.

Definition sum_class : NetworkClass Q unit := {|
  dimensions := fun nn => map shape (weights nn);
  resetWeights := fun nn e => (nn, e);
  calculateCost := calculateCost_sum
|}.

(** A dataset without examples for [net3]. *)
Definition X_empty : matrix Q := Mat 2 0 [[]; []].
Definition y_empty : matrix Q := Mat 1 0 [[]].

(** [W3], unrolled. *)
Definition v3 : list Q := [0; 1; 1; 1; 0; 2; 2; 1; 1]%Q.

(** ** Vocabulary of the further statements *)

Section ShapeVocabulary.
Context {R : Type} {SR : Scalar R}.

(** An activation gradient that returns, with the shape of its argument. *)
Definition act_total (f : ActivationFn R) : Prop :=
  forall z, exists g, act_grad f z = Ok g /\ shape g = shape z.

(** An error gradient that returns at the hypothesis [a[-1]] and the
    targets [y], with the shape of the hypothesis. *)
Definition err_returns (errfn : ErrorFn R) (a : list (matrix R))
    (y : matrix R) : Prop :=
  forall h, py_getitem a (-1) = Ok h ->
            exists g, err_grad errfn h y = Ok g /\ shape g = shape h.

(** The shapes of a forward pass over [m] examples: [z[i+1]] is
    [weights[i] * a[i]], [a[i]] has the rows of [z[i]] and the bias unit,
    the hypothesis has the shape of [z[-1]]. *)
Fixpoint well_shaped (b m : nat) (weights z a : list (matrix R)) : Prop :=
  match weights, z, a with
  | [], [z_last], [h] => shape h = shape z_last
  | wi :: weights', zi :: ((zn :: _) as z'), ai :: a' =>
      shape zn = (nrows wi, m)
      /\ shape ai = (ncols wi, m)
      /\ ncols wi = nrows zi + b
      /\ well_shaped b m weights' z' a'
  | _, _, _ => False
  end.

(** The deltas [d] of the layers after the input, aligned with the weight
    matrices: the delta of layer [i+1] has the rows of [weights[i]] and
    one column per example. *)
Definition delta_shapes (m : nat) (d : list (option (matrix R)))
    (weights : list (matrix R)) : Prop :=
  Forall2 (fun o wi => exists dn, o = Some dn /\ shape dn = (nrows wi, m))
          d weights.

End ShapeVocabulary.

(** * Properties *)

(** ** Lists and matrices *)

Lemma map_nth_seq_id {A : Type} (l : list A) (d : A) :
  map (fun i => nth i l d) (seq 0 (length l)) = l.
Proof.
  induction l as [| a l IH]; [reflexivity |].
  cbn [length seq map nth]. f_equal.
  rewrite <- seq_shift, map_map. exact IH.
Qed.

Section NumpyFacts.
Context {R : Type} {SR : Scalar R}.

Lemma get_tabulate (nr nc : nat) (f : nat -> nat -> R) (r c : nat) :
  r < nr -> c < nc -> get (tabulate nr nc f) r c = f r c.
Proof.
  intros Hr Hc. unfold get, tabulate. cbn [mrows].
  rewrite (nth_indep _ [] (map (fun c0 => f 0 c0) (seq 0 nc)))
    by (rewrite length_map, length_seq; exact Hr).
  rewrite (map_nth (fun r0 => map (fun c0 => f r0 c0) (seq 0 nc))).
  rewrite seq_nth by exact Hr. cbn [Nat.add].
  rewrite (nth_indep _ s_zero (f r 0))
    by (rewrite length_map, length_seq; exact Hc).
  rewrite (map_nth (fun c0 => f r c0)).
  rewrite seq_nth by exact Hc. reflexivity.
Qed.

Lemma get_column (v : list R) (i : nat) :
  get (Mat (length v) 1 (map (fun e => [e]) v)) i 0 = nth i v s_zero.
Proof.
  unfold get. cbn [mrows].
  destruct (Nat.lt_ge_cases i (length v)) as [Hi | Hi].
  - rewrite (nth_indep _ [] [s_zero]) by (rewrite length_map; exact Hi).
    rewrite (map_nth (fun e => [e])). reflexivity.
  - rewrite (nth_overflow (map _ v)) by (rewrite length_map; exact Hi).
    rewrite (nth_overflow v) by exact Hi. reflexivity.
Qed.

(** A column, transposed, has the unrolled vector as its first row. *)
Lemma first_row_transpose_column (v : list R) :
  first_row (transpose (Mat (length v) 1 (map (fun e => [e]) v))) = Ok v.
Proof.
  unfold first_row, transpose. cbn [nrows ncols tabulate Nat.eqb].
  f_equal.
  transitivity (map (fun i => nth i v s_zero) (seq 0 (length v)));
    [| apply map_nth_seq_id].
  apply map_ext_in. intros i Hi. apply in_seq in Hi.
  fold (tabulate 1 (length v)
          (fun r c => get (Mat (length v) 1 (map (fun e => [e]) v)) c r)).
  rewrite get_tabulate by lia. apply get_column.
Qed.

End NumpyFacts.

(** ** The closure [costfn]: installation of the weights and failures *)

Section CostfnEffects.
Context {R E : Type} {SR : Scalar R} {NC : NetworkClass R E}.
Variables (X y : matrix R) (learn_rate : R) (errfn : ErrorFn R).

Lemma costfn_try_run (computeGrad : bool) (ws : list (matrix R))
    (w : world R E) :
  costfn_try X y learn_rate errfn computeGrad ws w
  = (evaluate X y learn_rate errfn computeGrad (with_weights ws (nnet w)) ws,
     installed ws w).
Proof. reflexivity. Qed.

(** The three ways a call of [costfn] ends. *)
Lemma costfn_run (computeGrad : bool) (ws : list (matrix R))
    (w : world R E) :
  create_costfn X y learn_rate errfn computeGrad ws w
  = match evaluate X y learn_rate errfn computeGrad
            (with_weights ws (nnet w)) ws with
    | Ok out => (Ok out, installed ws w)
    | Raise e =>
        (Raise e,
         if is_ValueError e then logged diagnostic (installed ws w)
         else installed ws w)
    end.
Proof.
  unfold create_costfn, try_except_ValueError.
  rewrite costfn_try_run.
  destruct (evaluate _ _ _ _ _ _ _) as [out | e]; [reflexivity |].
  destruct (is_ValueError e); reflexivity.
Qed.

(** C8. Every call of [costfn], with or without the gradient, leaves
    [nnet.weights] equal to its argument; the cost and the gradient are
    computed on the network that already carries the argument, so neither
    the value returned nor the state reached depends on the weights the
    network had before the call. *)
Theorem costfn_overwrites_weights (computeGrad : bool)
    (ws : list (matrix R)) (w : world R E) :
  let run := create_costfn X y learn_rate errfn computeGrad ws w in
  weights (nnet (snd run)) = ws
  /\ fst run = evaluate X y learn_rate errfn computeGrad
                 (with_weights ws (nnet w)) ws
  /\ forall ws0 : list (matrix R),
       create_costfn X y learn_rate errfn computeGrad ws (installed ws0 w)
       = run.
Proof.
  cbv zeta. split; [| split].
  - rewrite costfn_run.
    destruct (evaluate _ _ _ _ _ _ _) as [out | e]; cbn; [reflexivity |].
    destruct (is_ValueError e); reflexivity.
  - rewrite costfn_run.
    destruct (evaluate _ _ _ _ _ _ _) as [out | e]; reflexivity.
  - intros ws0. rewrite !costfn_run. cbn [nnet installed].
    reflexivity.
Qed.

(** C9. When [costfn] raises, the network it leaves behind is the one it
    was given with [weights] replaced by the argument: the assignment is
    not undone, and the weights from before the call are gone. *)
Theorem costfn_failure_keeps_new_weights (computeGrad : bool)
    (ws : list (matrix R)) (w : world R E) (e : exn) :
  fst (create_costfn X y learn_rate errfn computeGrad ws w) = Raise e ->
  nnet (snd (create_costfn X y learn_rate errfn computeGrad ws w))
  = with_weights ws (nnet w).
Proof.
  rewrite costfn_run.
  case_eq (evaluate X y learn_rate errfn computeGrad
             (with_weights ws (nnet w)) ws).
  - intros out _ Hfst. discriminate Hfst.
  - intros e' _ _. cbn. case (is_ValueError e'); reflexivity.
Qed.

(** C6. A ValueError raised while the cost is evaluated leaves [costfn]
    as the same exception, after exactly one line, the diagnostic, has
    been printed; the call does not return a value. *)
Theorem costfn_logs_and_reraises (computeGrad : bool)
    (ws : list (matrix R)) (w : world R E) (e : exn) :
  evaluate X y learn_rate errfn computeGrad (with_weights ws (nnet w)) ws
  = Raise e ->
  exn_kind e = ValueError ->
  create_costfn X y learn_rate errfn computeGrad ws w
  = (Raise e,
     {| nnet := with_weights ws (nnet w);
        stdout := stdout w ++ [diagnostic];
        ext := ext w |}).
Proof.
  intros Hev Hkind. rewrite costfn_run, Hev.
  unfold is_ValueError. rewrite Hkind. reflexivity.
Qed.

End CostfnEffects.

Import Fixture.

(** Weights of the wrong shape for [net3]: one 1x2 matrix. *)
Lemma costfn_failure_keeps_new_weights_witness :
  let run := create_costfn (NC := network_class unit) X3 y3 1%Q squaredError
               true [mat [[1; 2]]%Q] (world_of net3 tt) in
  fst run = Raise (Exn ValueError "shapes not aligned")
  /\ nnet (snd run) = with_weights [mat [[1; 2]]%Q] net3
  /\ weights net3 <> [mat [[1; 2]]%Q].
Proof.
  cbv zeta. split; [vm_compute; reflexivity | split].
  - apply (@costfn_failure_keeps_new_weights Q unit _ (network_class unit)
             X3 y3 1%Q squaredError true [mat [[1; 2]]%Q] (world_of net3 tt)
             (Exn ValueError "shapes not aligned")).
    vm_compute. reflexivity.
  - vm_compute. discriminate.
Defined.

Lemma costfn_logs_and_reraises_witness :
  create_costfn (NC := network_class unit) X3 y3 1%Q squaredError true
    [mat [[1; 2]]%Q] (world_of net3 tt)
  = (Raise (Exn ValueError "shapes not aligned"),
     {| nnet := with_weights [mat [[1; 2]]%Q] net3;
        stdout := [diagnostic];
        ext := tt |}).
Proof.
  apply (@costfn_logs_and_reraises Q unit _ (network_class unit)
           X3 y3 1%Q squaredError true [mat [[1; 2]]%Q] (world_of net3 tt)
           (Exn ValueError "shapes not aligned")).
  - vm_compute. reflexivity.
  - reflexivity.
Defined.

(** ** The adapter [flattened_costfn] *)

(** The modelled helpers of [util] are inverse to each other on the shapes
    of [net3]. *)
Example reshape_unroll_round_trip :
  let v := [1; 2; 3; 4; 5; 6; 7; 8; 9]%Q in
  let dims := [(2, 3); (1, 3)] in
  reshape_vector (np_matrix v) dims
  = Ok [mat [[1; 2; 3]; [4; 5; 6]]%Q; mat [[7; 8; 9]]%Q]
  /\ unroll [mat [[1; 2; 3]; [4; 5; 6]]%Q; mat [[7; 8; 9]]%Q] = v
  /\ reshape_vector (np_matrix [1; 2]%Q) dims
     = Raise (Exn ValueError "total size of new array must be unchanged").
Proof. repeat split. Qed.

Section Adapter.
Context {R E : Type} {SR : Scalar R}.

Lemma first_row_unroll (ms : list (matrix R)) :
  (u <- unroll_matrices ms ;; first_row (transpose u))%res = Ok (unroll ms).
Proof.
  unfold unroll_matrices, unroll. cbn [rbind].
  apply first_row_transpose_column.
Qed.

(** C7. For every flat vector [v], what [flattened_costfn] returns is
    fixed by what [costfn] returns at [v] reshaped with [dims]: when
    [costfn] returns [(cost, gradients)] the adapter returns [cost] with
    the gradients unrolled into one flat vector, in the state [costfn]
    reached; a failure of the reshape or of [costfn] is the failure of the
    adapter; a cost without gradients cannot be unpacked. *)
Theorem flattened_costfn_returns
    (costfn : list (matrix R) -> M R E (@costfn_out R))
    (dims : list (nat * nat)) (v : list R) (w : world R E) :
  flattened_costfn costfn dims v w
  = match reshape_vector (np_matrix v) dims with
    | Raise ex => (Raise ex, w)
    | Ok ws =>
        match costfn ws w with
        | (Ok (CostGrads cost gradients), w') =>
            (Ok (cost, unroll gradients), w')
        | (Ok (CostOnly _), w') =>
            (Raise (Exn TypeError "'float' object is not iterable"), w')
        | (Raise ex, w') => (Raise ex, w')
        end
    end.
Proof.
  unfold flattened_costfn, bind, lift, ret.
  destruct (reshape_vector (np_matrix v) dims) as [ws | ex]; [| reflexivity].
  destruct (costfn ws w) as [[[cost | cost gradients] | ex] w'];
    try reflexivity.
  cbn [unpack].
  generalize (first_row_unroll gradients). unfold unroll_matrices.
  cbn [rbind]. intros ->. reflexivity.
Qed.

End Adapter.

Lemma flattened_costfn_returns_witness :
  flattened_costfn
    (@create_costfn Q unit _ (network_class unit) X3 y3 1%Q squaredError true)
    [(2, 3); (1, 3)] v3 (world_of net3 tt)
  = (Ok (cost3, unroll grads3), installed W3 (world_of net3 tt))
  /\ flattened_costfn
       (@create_costfn Q unit _ (network_class unit) X3 y3 1%Q squaredError
          false)
       [(2, 3); (1, 3)] v3 (world_of net3 tt)
     = (Raise (Exn TypeError "'float' object is not iterable"),
        installed W3 (world_of net3 tt))
  /\ flattened_costfn
       (@create_costfn Q unit _ (network_class unit) X3 y3 1%Q squaredError
          true)
       [(2, 3); (1, 3)] [1; 2]%Q (world_of net3 tt)
     = (Raise (Exn ValueError "total size of new array must be unchanged"),
        world_of net3 tt).
Proof.
  split; [| split].
  - etransitivity; [apply flattened_costfn_returns |].
    vm_compute. reflexivity.
  - etransitivity; [apply flattened_costfn_returns |].
    vm_compute. reflexivity.
  - etransitivity; [apply flattened_costfn_returns |].
    vm_compute. reflexivity.
Defined.

(** ** Python indexing *)

Lemma py_getitem_nth {A : Type} (l : list A) (n : nat) (a : A) :
  nth_error l n = Some a -> py_getitem l (Z.of_nat n) = Ok a.
Proof.
  intros Hn. unfold py_getitem.
  assert (Hlt : n < length l) by (apply nth_error_Some; congruence).
  destruct (Z.ltb_spec (Z.of_nat n) 0) as [Hneg | _]; [lia |].
  destruct (Z.leb_spec 0 (Z.of_nat n)) as [_ | Hneg]; [| lia].
  destruct (Z.ltb_spec (Z.of_nat n) (Z.of_nat (length l))) as [_ | Hge];
    [| lia].
  cbn [andb]. rewrite Nat2Z.id, Hn. reflexivity.
Qed.

Lemma py_getitem_Ok_nth {A : Type} (l : list A) (i : Z) (a : A) :
  (0 <= i)%Z -> py_getitem l i = Ok a -> nth_error l (Z.to_nat i) = Some a.
Proof.
  intros Hi. unfold py_getitem.
  destruct (Z.ltb_spec i 0) as [Hneg | _]; [lia |].
  destruct ((0 <=? i)%Z && (i <? Z.of_nat (length l))%Z); [| discriminate].
  destruct (nth_error l (Z.to_nat i)); [| discriminate].
  intros [= ->]. reflexivity.
Qed.

(** [l[-1]] is [l[len(l) - 1]]. *)
Lemma py_getitem_minus_one {A : Type} (l : list A) :
  py_getitem l (-1) = py_getitem l (Z.of_nat (length l) - 1).
Proof.
  unfold py_getitem. cbn [Z.ltb Z.compare].
  replace (Z.of_nat (length l) + -1)%Z with (Z.of_nat (length l) - 1)%Z
    by lia.
  destruct (Z.ltb_spec (Z.of_nat (length l) - 1) 0) as [Hneg | Hpos];
    [| reflexivity].
  destruct (Z.leb_spec 0 (Z.of_nat (length l) - 1)) as [Hle | _]; [lia |].
  cbn [andb].
  destruct (Z.leb_spec 0 (Z.of_nat (length l) + (Z.of_nat (length l) - 1)))
    as [Hle | _]; [lia | reflexivity].
Qed.

Lemma xrange_down_step (start : Z) :
  (0 < start)%Z ->
  xrange_down start 0 = start :: xrange_down (start - 1) 0.
Proof.
  intros Hs. unfold xrange_down.
  replace (Z.to_nat (start - 0)) with (S (Z.to_nat (start - 1 - 0))) by lia.
  cbn [seq map]. f_equal; [lia |].
  rewrite <- seq_shift, map_map. apply map_ext. intros k. lia.
Qed.

Lemma xrange_down_nil (start : Z) :
  (start <= 0)%Z -> xrange_down start 0 = [].
Proof.
  intros Hs. unfold xrange_down.
  replace (Z.to_nat (start - 0)) with O by lia. reflexivity.
Qed.

(** ** Backpropagation: the deltas *)

Ltac bind_inv_as H a :=
  match type of H with
  | rbind ?c _ = Ok _ =>
      let E := fresh "E" a in
      destruct c as [a |] eqn:E; cbn [rbind] in H; [| discriminate H]
  end.

Tactic Notation "bind_inv" hyp(H) "as" ident(a) := bind_inv_as H a.

Section Backprop.
Context {R : Type} {SR : Scalar R}.
Variables (nn : NeuralNetwork R) (weights z : list (matrix R)) (b : nat).

Lemma delta_chain_head (seed : matrix R) (i : Z)
    (d : list (option (matrix R))) :
  delta_chain nn weights z b seed i d ->
  exists dn rest, d = Some dn :: rest.
Proof. intros Hc. inversion Hc; subst; eauto. Qed.

(** The loop over the hidden layers extends a chain downwards, one layer
    per iteration, and stops at layer 1. *)
Lemma backprop_loop_chain (seed : matrix R) (n : nat) :
  forall (start : Z) (d0 d : list (option (matrix R))),
    start = Z.of_nat n ->
    delta_chain nn weights z b seed (start + 1) d0 ->
    backprop_loop nn weights z b (xrange_down start 0) d0 = Ok d ->
    delta_chain nn weights z b seed 1 d /\ length d = length d0 + n.
Proof.
  induction n as [| n IH]; intros start d0 d Hstart Hchain Hloop.
  - rewrite xrange_down_nil in Hloop by lia. cbn in Hloop.
    injection Hloop as <-. subst start. split; [exact Hchain | lia].
  - rewrite xrange_down_step in Hloop by lia.
    cbn [backprop_loop] in Hloop.
    destruct (delta_chain_head Hchain) as (dn & rest & ->).
    change (py_getitem (Some dn :: rest) 0) with (Ok (A := option (matrix R)) (Some dn)) in Hloop.
    cbn [rbind] in Hloop.
    bind_inv Hloop as layer. bind_inv Hloop as weight.
    bind_inv Hloop as zi. bind_inv Hloop as g.
    cbn [as_matrix rbind] in Hloop.
    bind_inv Hloop as t. bind_inv Hloop as di.
    apply IH in Hloop; [| lia |].
    + destruct Hloop as [Hc Hlen]. split; [exact Hc |].
      rewrite Hlen. cbn [length]. lia.
    + replace (start - 1 + 1)%Z with start by lia.
      apply chain_step; [exact Hchain |].
      red. eauto 12.
Qed.

Lemma delta_chain_steps (seed : matrix R) (i : Z)
    (d : list (option (matrix R))) :
  delta_chain nn weights z b seed i d ->
  forall j : nat,
    S j < length d ->
    exists dn di,
      nth_error d (S j) = Some (Some dn)
      /\ nth_error d j = Some (Some di)
      /\ delta_step nn weights z b (i + Z.of_nat j) dn di.
Proof.
  induction 1 as [i | i dn di rest Hc IH Hs]; intros j Hj.
  - cbn in Hj. lia.
  - destruct j as [| j].
    + exists dn, di. repeat split; try reflexivity.
      replace (i + Z.of_nat 0)%Z with i by lia. exact Hs.
    + cbn [length] in Hj, IH.
      destruct (IH j) as (dn' & di' & H1 & H2 & H3); [lia |].
      exists dn', di'. repeat split; try assumption.
      replace (i + Z.of_nat (S j))%Z with (i + 1 + Z.of_nat j)%Z by lia.
      exact H3.
Qed.

Lemma delta_chain_last (seed : matrix R) (i : Z)
    (d : list (option (matrix R))) :
  delta_chain nn weights z b seed i d ->
  nth_error d (length d - 1) = Some (Some seed).
Proof.
  induction 1 as [i | i dn di rest Hc IH Hs]; [reflexivity |].
  cbn [length] in *.
  replace (S (S (length rest)) - 1) with (S (S (length rest) - 1)) by lia.
  exact IH.
Qed.

(** The deque once the deltas are computed: the filler, then a chain
    from layer 1 up to the seed. *)
Lemma deltas_chain (errfn : ErrorFn R) (h y : matrix R)
    (d : list (option (matrix R))) :
  deltas y errfn nn weights z h b = Ok d ->
  exists seed d',
    d = None :: d'
    /\ delta_seed nn z errfn h y seed
    /\ delta_chain nn weights z b seed 1 d'
    /\ Z.of_nat (length d')
       = (Z.max (Z.of_nat (length (layers nn))) 2 - 1)%Z.
Proof.
  intros Hd. set (L := Z.of_nat (length (layers nn))).
  unfold deltas in Hd.
  bind_inv Hd as last_layer. bind_inv Hd as z_last. bind_inv Hd as g.
  bind_inv Hd as eg. bind_inv Hd as seed. bind_inv Hd as d'.
  injection Hd as <-. exists seed, d'.
  split; [reflexivity |]. split; [red; eauto 10 |].
  fold L in Ed'. destruct (Z.le_gt_cases (L - 2) 0) as [Hle | Hgt].
  - rewrite xrange_down_nil in Ed' by exact Hle.
    cbn in Ed'. injection Ed' as <-. split; [constructor |].
    cbn [length].
    assert (L <> 0%Z).
    { intros HL. unfold L in HL.
      destruct (layers nn); [discriminate Elast_layer | discriminate HL]. }
    lia.
  - apply (@backprop_loop_chain seed (Z.to_nat (L - 2))) in Ed';
      [| lia | constructor].
    destruct Ed' as [Hc Hlen]. split; [exact Hc |].
    rewrite Hlen. cbn [length]. lia.
Qed.

(** The deque that "Calculate deltas" builds, entry by entry. *)
Lemma deltas_entries (errfn : ErrorFn R) (h y : matrix R)
    (d : list (option (matrix R))) :
  deltas y errfn nn weights z h b = Ok d ->
  let L := Z.of_nat (length (layers nn)) in
  py_getitem d 0 = Ok None
  /\ Z.of_nat (length d) = Z.max L 2
  /\ (exists seed,
        delta_seed nn z errfn h y seed
        /\ py_getitem d (Z.max L 2 - 1) = Ok (Some seed))
  /\ py_getitem (layers nn) (-1) = py_getitem (layers nn) (L - 1)
  /\ (length z = length (layers nn) ->
      py_getitem z (-1) = py_getitem z (L - 1))
  /\ (forall i : Z,
        (1 <= i <= L - 2)%Z ->
        exists dn di,
          py_getitem d (i + 1) = Ok (Some dn)
          /\ py_getitem d i = Ok (Some di)
          /\ delta_step nn weights z b i dn di).
Proof.
  intros Hd L.
  destruct (deltas_chain Hd) as (seed & d' & -> & Hseed & Hchain & Hlen).
  fold L in Hlen.
  split; [reflexivity |]. split; [cbn [length]; lia |].
  split; [| split; [| split]].
  - exists seed. split; [exact Hseed |].
    replace (Z.max L 2 - 1)%Z with (Z.of_nat (S (length d' - 1))) by lia.
    apply py_getitem_nth. cbn [nth_error].
    apply (delta_chain_last Hchain).
  - apply py_getitem_minus_one.
  - intros Hz. unfold L. rewrite <- Hz. apply py_getitem_minus_one.
  - intros i Hi.
    destruct (delta_chain_steps Hchain (j := Z.to_nat (i - 1)))
      as (dn & di & H1 & H2 & H3); [lia |].
    exists dn, di. repeat split.
    + replace (i + 1)%Z with (Z.of_nat (S (S (Z.to_nat (i - 1))))) by lia.
      apply py_getitem_nth. exact H1.
    + replace i with (Z.of_nat (S (Z.to_nat (i - 1)))) at 1 by lia.
      apply py_getitem_nth. exact H2.
    + replace (1 + Z.of_nat (Z.to_nat (i - 1)))%Z with i in H3 by lia.
      exact H3.
Qed.

End Backprop.

(** ** Backpropagation: the gradients *)

Section Shapes.
Context {R : Type} {SR : Scalar R}.

Lemma bdim_same (n : nat) : bdim n n = Some n.
Proof. unfold bdim. rewrite Nat.eqb_refl. reflexivity. Qed.

Lemma matmul_shape (A B C : matrix R) :
  matmul A B = Ok C -> shape C = (nrows A, ncols B).
Proof.
  unfold matmul. destruct (ncols A =? nrows B); [| discriminate].
  intros [= <-]. reflexivity.
Qed.

Lemma np_multiply_rows (A B C : matrix R) :
  np_multiply A B = Ok C -> nrows A = nrows B -> nrows C = nrows A.
Proof.
  unfold np_multiply. intros HC Hrows. rewrite <- Hrows, bdim_same in HC.
  destruct (bdim (ncols A) (ncols B)); [| discriminate].
  injection HC as <-. reflexivity.
Qed.

Lemma iadd_cols_from_shape (b : nat) (G A G' : matrix R) :
  iadd_cols_from b G A = Ok G' -> shape G' = shape G.
Proof.
  unfold iadd_cols_from. destruct (_ && _); [| discriminate].
  intros [= <-]. reflexivity.
Qed.

(** Columns before [b] are left as they were. *)
Lemma iadd_cols_from_left (b : nat) (G A G' : matrix R) (r c : nat) :
  iadd_cols_from b G A = Ok G' ->
  r < nrows G -> c < ncols G -> c < b ->
  get G' r c = get G r c.
Proof.
  unfold iadd_cols_from. destruct (_ && _); [| discriminate].
  intros [= <-] Hr Hc Hb. rewrite get_tabulate by assumption.
  destruct (Nat.ltb_spec c b); [reflexivity | lia].
Qed.

(** Columns from [b] on receive the entry of the operand. *)
Lemma iadd_cols_from_right (b : nat) (G A G' : matrix R) (r c : nat) :
  iadd_cols_from b G A = Ok G' ->
  r < nrows G -> c < ncols G -> b <= c ->
  get G' r c = s_add (get G r c) (bget A r (c - b)).
Proof.
  unfold iadd_cols_from. destruct (_ && _); [| discriminate].
  intros [= <-] Hr Hc Hb. rewrite get_tabulate by assumption.
  destruct (Nat.ltb_spec c b); [lia | reflexivity].
Qed.

(** Without broadcasting, the regularized term at [(r, c - b)] is the
    scaled weight at [(r, c)]. *)
Lemma bget_reg_grad (X : matrix R) (learn_rate : R) (b : nat)
    (wi : matrix R) (r c : nat) :
  r < nrows wi -> c < ncols wi -> b <= c ->
  bget (reg_grad X learn_rate b wi) r (c - b)
  = s_mul (s_div learn_rate (s_of_nat (ncols X))) (get wi r c).
Proof.
  intros Hr Hc Hb. unfold bget, reg_grad, scale, slice_cols_from.
  cbn [nrows ncols tabulate].
  assert (Hr' : (if nrows wi =? 1 then 0 else r) = r).
  { destruct (Nat.eqb_spec (nrows wi) 1); [lia | reflexivity]. }
  assert (Hc' : (if ncols wi - b =? 1 then 0 else c - b) = c - b).
  { destruct (Nat.eqb_spec (ncols wi - b) 1); [lia | reflexivity]. }
  rewrite Hr', Hc'.
  fold (tabulate (nrows wi) (ncols wi - b) (fun r0 c0 => get wi r0 (c0 + b))).
  fold (tabulate (nrows wi) (ncols wi - b)
          (fun r0 c0 =>
             s_mul (s_div learn_rate (s_of_nat (ncols X)))
               (get (tabulate (nrows wi) (ncols wi - b)
                       (fun r1 c1 => get wi r1 (c1 + b))) r0 c0))).
  rewrite !get_tabulate by lia.
  replace (c - b + b) with c by lia. reflexivity.
Qed.

Lemma conforms_layer (b : nat) (ws z a : list (matrix R)) :
  conforms b ws z a ->
  forall i wi,
    nth_error ws i = Some wi ->
    exists zi zn ai,
      nth_error z i = Some zi /\ nth_error z (S i) = Some zn
      /\ nth_error a i = Some ai
      /\ nrows zn = nrows wi /\ nrows ai = ncols wi
      /\ nrows ai = nrows zi + b.
Proof.
  revert z a. induction ws as [| w0 ws IH]; intros z a Hc i wi Hi.
  - destruct i; discriminate Hi.
  - destruct z as [| zi [| zn z']]; try contradiction;
      destruct a as [| ai a']; try contradiction.
    cbn [conforms] in Hc. destruct Hc as (H1 & H2 & H3 & Hc).
    destruct i as [| i].
    + injection Hi as <-. exists zi, zn, ai. repeat split; assumption.
    + cbn [nth_error] in Hi. destruct (IH _ _ Hc i wi Hi)
        as (zi' & zn' & ai' & Hz1 & Hz2 & Ha & Hrest).
      exists zi', zn', ai'. repeat split; try assumption; apply Hrest.
Qed.

Lemma conforms_last (b : nat) (ws z a : list (matrix R)) :
  conforms b ws z a ->
  length z = S (length ws) /\ length a = S (length ws)
  /\ exists z_last h,
       nth_error z (length ws) = Some z_last
       /\ nth_error a (length ws) = Some h
       /\ nrows h = nrows z_last.
Proof.
  revert z a. induction ws as [| w0 ws IH]; intros z a Hc.
  - destruct z as [| zl [| ? ?]]; try contradiction;
      destruct a as [| h [| ? ?]]; try contradiction.
    cbn in Hc. repeat split. exists zl, h. repeat split. exact Hc.
  - destruct z as [| zi [| zn z']]; try contradiction;
      destruct a as [| ai a']; try contradiction.
    cbn [conforms] in Hc. destruct Hc as (_ & _ & _ & Hc).
    destruct (IH _ _ Hc) as (Hlz & Hla & zl & h & H1 & H2 & H3).
    cbn [length] in *. repeat split; try lia.
    exists zl, h. repeat split; assumption.
Qed.

End Shapes.

Section Gradients.
Context {R : Type} {SR : Scalar R}.
Variables (X : matrix R) (learn_rate : R).
Variables (weights a : list (matrix R)) (d : list (option (matrix R))).
Variable b : nat.

(** Each iteration appends the gradient of its layer. *)
Lemma gradients_loop_spec (n : nat) :
  forall (start : nat) (grads0 grads : list (matrix R)),
    gradients_loop X learn_rate weights a d b
      (map Z.of_nat (seq start n)) grads0 = Ok grads ->
    exists new,
      grads = grads0 ++ new /\ length new = n
      /\ forall k G,
           nth_error new k = Some G ->
           layer_gradient X learn_rate weights a d b
             (Z.of_nat (start + k)) G.
Proof.
  induction n as [| n IH]; intros start grads0 grads Hloop.
  - cbn in Hloop. injection Hloop as <-. exists [].
    rewrite app_nil_r. repeat split. intros [| k] G Hk; discriminate Hk.
  - cbn [seq map gradients_loop] in Hloop.
    bind_inv Hloop as inv_m. bind_inv Hloop as o. bind_inv Hloop as dn.
    bind_inv Hloop as ai. bind_inv Hloop as unreg.
    bind_inv Hloop as lr_m. bind_inv Hloop as wi.
    bind_inv Hloop as grad.
    destruct (IH _ _ _ Hloop) as (new & -> & Hlen & Hnew).
    exists (grad :: new). rewrite <- app_assoc. repeat split.
    + cbn [length]. lia.
    + intros [| k] G Hk.
      * injection Hk as <-. rewrite Nat.add_0_r.
        destruct o as [dn' |]; [| discriminate Edn].
        injection Edn as ->.
        unfold div_by_m in Einv_m, Elr_m.
        destruct (Nat.eqb_spec (ncols X) 0) as [| Hm]; [discriminate |].
        injection Einv_m as <-. injection Elr_m as <-.
        exists dn, ai, wi, unreg. repeat split; assumption.
      * replace (start + S k) with (S start + k) by lia.
        apply Hnew. exact Hk.
Qed.

Lemma gradients_spec (nn : NeuralNetwork R) (grads : list (matrix R)) :
  gradients X learn_rate nn weights a d b = Ok grads ->
  length grads = length (weights_of nn)
  /\ forall k G,
       nth_error grads k = Some G ->
       layer_gradient X learn_rate weights a d b (Z.of_nat k) G.
Proof.
  unfold gradients, xrange, weights_of. rewrite Nat2Z.id. intros Hg.
  destruct (gradients_loop_spec Hg) as (new & -> & Hlen & Hnew).
  split; [exact Hlen |]. exact Hnew.
Qed.

End Gradients.

Lemma py_getitem_In {A : Type} (l : list A) (i : Z) (a : A) :
  py_getitem l i = Ok a -> In a l.
Proof.
  unfold py_getitem. destruct (_ && _); [| discriminate].
  destruct (nth_error l _) eqn:Hn; [| discriminate].
  intros [= <-]. eapply nth_error_In. exact Hn.
Qed.

Section DeltaRows.
Context {R : Type} {SR : Scalar R}.
Variables (nn : NeuralNetwork R) (ws z a : list (matrix R)) (b : nat).
Variables (errfn : ErrorFn R) (h y seed : matrix R).
Variable d' : list (option (matrix R)).

Hypothesis Hlayers : length (layers nn) = S (length ws).
Hypothesis Hact :
  forall layer, In layer (layers nn) ->
                act_shape_preserving (activationfn layer).
Hypothesis Herr : err_shape_preserving errfn.
Hypothesis Hfwd : conforms b ws z a.
Hypothesis Hh : py_getitem a (-1) = Ok h.
Hypothesis Hseed : delta_seed nn z errfn h y seed.
Hypothesis Hchain : delta_chain nn ws z b seed 1 d'.
Hypothesis Hlen :
  Z.of_nat (length d') = (Z.max (Z.of_nat (length (layers nn))) 2 - 1)%Z.

(** Under the contracts, the delta of layer [i+1], which is [d'[i]], has
    the rows of [weights[i]]. *)
Lemma deltas_rows (i : nat) (wi dn : matrix R) :
  nth_error ws i = Some wi ->
  nth_error d' i = Some (Some dn) ->
  nrows dn = nrows wi.
Proof.
  intros Hwi Hdn.
  assert (Hi : i < length ws) by (apply nth_error_Some; congruence).
  destruct (conforms_layer Hfwd Hwi)
    as (zi & zn & ai & _ & Hzn & _ & Hrows & _ & _).
  destruct (conforms_last Hfwd)
    as (Hlz & Hla & z_last & h' & Hzl & Hh' & Hhrows).
  rewrite <- Hrows.
  destruct (Nat.eq_dec (S i) (length ws)) as [Hend | Hmid].
  - (* the output layer: the seed *)
    pose proof (delta_chain_last Hchain) as Hlast.
    replace (length d' - 1) with i in Hlast by lia.
    rewrite Hlast in Hdn. injection Hdn as <-.
    destruct Hseed as (last_layer & zl & g & eg & Hl & Hz & Hg & Heg & Hm).
    rewrite py_getitem_minus_one, Hlz in Hz.
    replace (Z.of_nat (S (length ws)) - 1)%Z with (Z.of_nat (length ws))
      in Hz by lia.
    rewrite (py_getitem_nth Hzl) in Hz. injection Hz as <-.
    rewrite py_getitem_minus_one, Hla in Hh.
    replace (Z.of_nat (S (length ws)) - 1)%Z with (Z.of_nat (length ws))
      in Hh by lia.
    rewrite (py_getitem_nth Hh') in Hh. injection Hh as <-.
    apply (Hact (py_getitem_In Hl)) in Hg. apply Herr in Heg.
    injection Hg as Hg _. injection Heg as Heg _.
    rewrite (np_multiply_rows Hm) by congruence.
    rewrite Hend in Hzn. congruence.
  - (* a hidden layer: one backward step *)
    destruct (delta_chain_steps Hchain (j := i))
      as (dn' & di & _ & Hdi & Hstep); [lia |].
    rewrite Hdi in Hdn. injection Hdn as <-.
    destruct Hstep as (layer & weight & zi' & g & t & Hl & Hw & Hz & Hg
                       & Ht & Hm).
    apply py_getitem_Ok_nth in Hw; [| lia].
    apply py_getitem_Ok_nth in Hz; [| lia].
    replace (Z.to_nat (1 + Z.of_nat i)) with (S i) in Hw, Hz by lia.
    destruct (conforms_layer Hfwd Hw)
      as (zi2 & _ & ai2 & Hzi2 & _ & _ & _ & Hcols & Hbias).
    apply (Hact (py_getitem_In Hl)) in Hg. injection Hg as Hg _.
    apply matmul_shape in Ht. injection Ht as Ht _.
    cbn [transpose slice_cols_from tabulate nrows ncols] in Ht.
    rewrite Hz in Hzi2. injection Hzi2 as <-.
    rewrite Hz in Hzn. injection Hzn as <-.
    rewrite (np_multiply_rows Hm) by lia.
    exact Hg.
Qed.

End DeltaRows.

Section CostfnGradient.
Context {R E : Type} {SR : Scalar R} {NC : NetworkClass R E}.
Variables (X y : matrix R) (learn_rate : R) (errfn : ErrorFn R).


End CostfnGradient.

Section CostfnDeltas.
Context {R E : Type} {SR : Scalar R} {NC : NetworkClass R E}.
Variables (X y : matrix R) (learn_rate : R) (errfn : ErrorFn R).

(** C2. When [costfn] is asked for the gradient and returns it, the
    gradients are those computed from a deque [d] of deltas built from the
    forward pass [(z, a, cost)] of the network carrying [weights], with
    [h = a[-1]] and [b] the bias flag of the network: [d[0]] is the filler
    [None], which nothing computes; the last entry, [d[L-1]] for a network
    of [L >= 2] layers, is the seed [activation_grad(z[-1])] times
    [error_grad(h, y)] elementwise, for the activation of layer [L-1],
    where [z[-1]] is [z[L-1]] when [z] has one entry per layer; and at
    every hidden index [i] from [L-2] down to 1, [d[i]] is the elementwise
    product of [activation_grad(z[i])] with [weights[i][:, b:].T * d[i+1]],
    the bias column of the forward weight matrix being cut off when the
    network has a bias unit. *)
Theorem costfn_backpropagation (ws : list (matrix R)) (w w' : world R E)
    (cost : R) (grads : list (matrix R)) :
  let nn := with_weights ws (nnet w) in
  let b := if bias nn then 1 else 0 in
  let L := Z.of_nat (length (layers nn)) in
  create_costfn X y learn_rate errfn true ws w
  = (Ok (CostGrads cost grads), w') ->
  exists z a h d,
    calculateCost nn X y errfn learn_rate = Ok (z, a, cost)
    /\ py_getitem a (-1) = Ok h
    /\ deltas y errfn nn ws z h b = Ok d
    /\ gradients X learn_rate nn ws a d b = Ok grads
    /\ py_getitem d 0 = Ok None
    /\ Z.of_nat (length d) = Z.max L 2
    /\ (exists seed,
          delta_seed nn z errfn h y seed
          /\ py_getitem d (Z.max L 2 - 1) = Ok (Some seed))
    /\ py_getitem (layers nn) (-1) = py_getitem (layers nn) (L - 1)
    /\ (length z = length (layers nn) ->
        py_getitem z (-1) = py_getitem z (L - 1))
    /\ (forall i : Z,
          (1 <= i <= L - 2)%Z ->
          exists dn di,
            py_getitem d (i + 1) = Ok (Some dn)
            /\ py_getitem d i = Ok (Some di)
            /\ delta_step nn ws z b i dn di).
Proof.
  intros nn b L Hrun.
  rewrite costfn_run in Hrun. fold nn in Hrun.
  destruct (evaluate X y learn_rate errfn true nn ws) as [out | ex] eqn:Hev;
    [| discriminate Hrun].
  injection Hrun as -> _.
  unfold evaluate in Hev. fold b in Hev.
  bind_inv Hev as p. destruct p as [[z a] c].
  bind_inv Hev as h. bind_inv Hev as d. bind_inv Hev as grads'.
  injection Hev as -> ->.
  exists z, a, h, d.
  split; [reflexivity |]. split; [exact Eh |]. split; [exact Ed |].
  split; [exact Egrads' |]. exact (deltas_entries Ed).
Qed.

End CostfnDeltas.

Lemma costfn_backpropagation_witness :
  exists z a h d,
    @calculateCost Q unit (network_class unit)
      (with_weights W3 net3) X3 y3 squaredError 1%Q
    = Ok (z, a, cost3)
    /\ py_getitem a (-1) = Ok h
    /\ deltas y3 squaredError (with_weights W3 net3) W3 z h 1 = Ok d
    /\ gradients X3 1%Q (with_weights W3 net3) W3 a d 1 = Ok grads3
    /\ py_getitem d 0 = Ok None
    /\ Z.of_nat (length d) = 3%Z
    /\ (exists seed,
          delta_seed (with_weights W3 net3) z squaredError h y3 seed
          /\ py_getitem d 2 = Ok (Some seed))
    /\ py_getitem (layers (with_weights W3 net3)) (-1)
       = py_getitem (layers (with_weights W3 net3)) 2
    /\ (length z = 3 -> py_getitem z (-1) = py_getitem z 2)
    /\ (forall i : Z,
          (1 <= i <= 1)%Z ->
          exists dn di,
            py_getitem d (i + 1) = Ok (Some dn)
            /\ py_getitem d i = Ok (Some di)
            /\ delta_step (with_weights W3 net3) W3 z 1 i dn di).
Proof.
  apply (@costfn_backpropagation Q unit _ (network_class unit)
           X3 y3 1%Q squaredError W3 (world_of net3 tt)
           (installed W3 (world_of net3 tt)) cost3 grads3).
  vm_compute. reflexivity.
Defined.

(** The deltas of that run: the seed is [h - y], and the delta of the
    hidden layer carries the weights [1, 1] of the output layer, its bias
    weight 2 cut off. *)
Example net3_deltas_values :
  deltas y3 squaredError (with_weights W3 net3) W3 z3 h3 1
  = Ok [None; Some (mat [[9; 4]; [9; 4]]%Q); Some (mat [[9; 4]]%Q)].
Proof. vm_compute. reflexivity. Qed.

Lemma identity_shape_preserving : act_shape_preserving identity.
Proof. intros z g [= <-]. reflexivity. Qed.

Lemma squaredError_shape_preserving : err_shape_preserving squaredError.
Proof.
  intros h y g Hg. cbn in Hg.
  destruct (_ && _); [injection Hg as <-; reflexivity | discriminate Hg].
Qed.


(** ** The order of floats *)

Lemma Qltb_lt (p q : Q) : Qltb p q = true <-> (p < q)%Q.
Proof. unfold Qltb, Qlt. apply Z.ltb_lt. Qed.

Lemma Qltb_ge (p q : Q) : Qltb p q = false <-> (q <= p)%Q.
Proof. unfold Qltb, Qle. apply Z.ltb_ge. Qed.

Lemma float_lt_trans (a b c : pyfloat) :
  float_lt a b = true -> float_lt b c = true -> float_lt a c = true.
Proof.
  destruct a as [| p | |], b as [| q | |], c as [| r | |]; cbn;
    try discriminate; try reflexivity.
  rewrite !Qltb_lt. apply Qlt_trans.
Qed.

(** Below [PosInf] the order is total: what is not above [b] is below
    whatever [b] is below. *)
Lemma float_lt_below (a b c : pyfloat) :
  float_lt a b = true -> float_lt c b = false -> float_lt c PosInf = true ->
  float_lt a c = true.
Proof.
  destruct a as [| p | |], b as [| q | |], c as [| r | |]; cbn;
    try discriminate; try reflexivity.
  rewrite !Qltb_lt, Qltb_ge. intros Hpq Hqr _.
  eapply Qlt_le_trans; eassumption.
Qed.

(** ** The restart loop *)

Section Selection.
Context {R : Type}.

Lemma tracks_init : tracks (@nil (Result R)) (None, PosInf).
Proof. split; [reflexivity |]. intros r []. Qed.

Lemma keep_best_tracks (rs : list (Result R))
    (st : option (Result R) * pyfloat) (r : Result R) :
  tracks rs st -> tracks (rs ++ [r]) (keep_best st r).
Proof.
  destruct st as [[best |] min_error]; intros [Hmin Hsel];
    cbn [fst snd] in Hmin, Hsel; subst min_error; unfold keep_best;
    cbn [fst snd].
  - (* a best result is recorded *)
    destruct Hsel as (before & after & -> & Hcand & Hbefore & Hafter).
    assert (Hbelow : float_lt (fun_ best) PosInf = true).
    { unfold candidate in Hcand. apply andb_prop in Hcand. tauto. }
    destruct (success r && float_lt (fun_ r) (fun_ best)) eqn:Htest.
    + apply andb_prop in Htest. destruct Htest as [Hs Hlt].
      split; [reflexivity |]. cbn [fst].
      exists (before ++ best :: after), []. repeat split.
      * unfold candidate. rewrite Hs. cbn [andb].
        eapply float_lt_trans; eassumption.
      * intros r' Hin Hc. apply in_app_or in Hin.
        destruct Hin as [Hin | [<- | Hin]].
        -- eapply float_lt_trans; [exact Hlt | auto].
        -- exact Hlt.
        -- eapply float_lt_below; [exact Hlt | auto |].
           unfold candidate in Hc. apply andb_prop in Hc. tauto.
      * intros r' [].
    + split; [reflexivity |]. cbn [fst].
      exists before, (after ++ [r]). repeat split.
      * rewrite <- app_assoc. reflexivity.
      * exact Hcand.
      * exact Hbefore.
      * intros r' Hin Hc. apply in_app_or in Hin.
        destruct Hin as [Hin | [<- | []]]; [auto |].
        unfold candidate in Hc. apply andb_prop in Hc.
        destruct Hc as [Hs _]. rewrite Hs in Htest. exact Htest.
  - (* nothing recorded yet *)
    fold (candidate r).
    destruct (candidate r) eqn:Hc.
    + split; [reflexivity |]. cbn [fst].
      exists rs, []. repeat split; [exact Hc | | intros r' []].
      intros r' Hin Hc'. rewrite (Hsel _ Hin) in Hc'. discriminate Hc'.
    + split; [reflexivity |]. cbn [fst].
      intros r' Hin. apply in_app_or in Hin.
      destruct Hin as [Hin | [<- | []]]; auto.
Qed.

Lemma fold_keep_best_tracks (new : list (Result R)) :
  forall (rs : list (Result R)) (st : option (Result R) * pyfloat),
    tracks rs st -> tracks (rs ++ new) (fold_left keep_best new st).
Proof.
  induction new as [| r new IH]; intros rs st Ht.
  - rewrite app_nil_r. exact Ht.
  - cbn [fold_left].
    replace (rs ++ r :: new) with ((rs ++ [r]) ++ new)
      by (rewrite <- app_assoc; reflexivity).
    apply IH, keep_best_tracks, Ht.
Qed.

Lemma tracks_invariant (rs : list (Result R))
    (st : option (Result R) * pyfloat) :
  tracks rs st -> loop_invariant rs st.
Proof.
  destruct st as [[best |] min_error]; intros [Hmin Hsel];
    cbn [fst snd] in Hmin, Hsel.
  - right. destruct Hsel as (before & after & -> & Hcand & _).
    exists best. repeat split; [| | exact Hmin].
    + apply in_or_app. right. left. reflexivity.
    + unfold candidate in Hcand. apply andb_prop in Hcand. tauto.
  - left. split; [reflexivity | exact Hmin].
Qed.

End Selection.

Section Trainer.
Context {R E : Type} {SR : Scalar R} {NC : NetworkClass R E}.
Variables (fc : list R -> M R E (R * list R)) (minimizer : @Minimizer R E).

(** The loop folds [keep_best] over the results of its restarts. *)
Lemma restart_loop_trace (n : nat) :
  forall (st : option (Result R) * pyfloat) (w : world R E),
    restart_loop fc minimizer n st w
    = match restart_trace fc minimizer n w with
      | (Ok rs, w') => (Ok (fold_left keep_best rs st), w')
      | (Raise e, w') => (Raise e, w')
      end.
Proof.
  induction n as [| n IH]; intros st w; [reflexivity |].
  cbn [restart_loop restart_trace]. unfold bind, ret.
  destruct (restart fc minimizer w) as [[r | e] w1]; [| reflexivity].
  rewrite IH.
  destruct (restart_trace fc minimizer n w1) as [[rs | e] w2]; reflexivity.
Qed.

Lemma restart_trace_length (n : nat) :
  forall (w w' : world R E) (rs : list (Result R)),
    restart_trace fc minimizer n w = (Ok rs, w') -> length rs = n.
Proof.
  induction n as [| n IH]; intros w w' rs Ht.
  - injection Ht as <- _. reflexivity.
  - cbn [restart_trace] in Ht. unfold bind, ret in Ht.
    destruct (restart fc minimizer w) as [[r | e] w1]; [| discriminate Ht].
    destruct (restart_trace fc minimizer n w1) as [[rs' | e] w2] eqn:Hn;
      [| discriminate Ht].
    injection Ht as <- _. cbn [length]. f_equal. eapply IH, Hn.
Qed.

(** A completed loop has run all its restarts and tracks the selection
    among their results. *)
Lemma restart_loop_tracks (n : nat) (w wn : world R E)
    (st : option (Result R) * pyfloat) :
  restart_loop fc minimizer n (None, PosInf) w = (Ok st, wn) ->
  exists rs,
    restart_trace fc minimizer n w = (Ok rs, wn)
    /\ length rs = n
    /\ tracks rs st.
Proof.
  rewrite restart_loop_trace.
  destruct (restart_trace fc minimizer n w) as [[rs | e] w'] eqn:Ht;
    [| discriminate].
  intros [= <- <-]. exists rs. split; [reflexivity |].
  split; [eapply restart_trace_length, Ht |].
  apply (fold_keep_best_tracks rs (rs := [])), tracks_init.
Qed.

End Trainer.

Section Train.
Context {R E : Type} {SR : Scalar R} {NC : NetworkClass R E}.
Variables (X y : matrix R) (learn_rate : R) (errfn : ErrorFn R).
Variables (minimizer : @Minimizer R E) (iterations : Z).

(** How a call of [train] ends, from how its loop ends. *)
Lemma train_run (w : world R E) :
  train X y learn_rate errfn minimizer iterations w
  = match restart_loop (adapter_of X y learn_rate errfn w) minimizer
            (Z.to_nat iterations) (None, PosInf) w with
    | (Raise e, wl) => (Raise e, wl)
    | (Ok (None, _), wl) => (Ok None, wl)
    | (Ok (Some r, _), wl) =>
        match reshape_vector (np_matrix (x r)) (dimensions (nnet w)) with
        | Ok min_weights => (Ok (Some r), installed min_weights wl)
        | Raise e => (Raise e, wl)
        end
    end.
Proof.
  unfold train, adapter_of, bind, get_nnet, ret, lift.
  destruct (restart_loop _ minimizer (Z.to_nat iterations) (None, PosInf) w)
    as [[[[r |] min_error] | e] wl]; cbn [fst]; try reflexivity.
  destruct (reshape_vector (np_matrix (x r)) (dimensions (nnet w)));
    reflexivity.
Qed.

End Train.

Section TrainResults.
Context {R E : Type} {SR : Scalar R} {NC : NetworkClass R E}.
Variables (X y : matrix R) (learn_rate : R) (errfn : ErrorFn R).
Variables (minimizer : @Minimizer R E) (iterations : Z).

(** A call of [train] that returns has completed its loop; it returns the
    recorded best result and commits it, if there is one. *)
Lemma train_returns (w w' : world R E) (res : option (Result R)) :
  train X y learn_rate errfn minimizer iterations w = (Ok res, w') ->
  exists rs wl min_error,
    restart_trace (adapter_of X y learn_rate errfn w) minimizer
      (Z.to_nat iterations) w = (Ok rs, wl)
    /\ length rs = Z.to_nat iterations
    /\ tracks rs (res, min_error)
    /\ match res with
       | Some r =>
           exists min_weights,
             reshape_vector (np_matrix (x r)) (dimensions (nnet w))
             = Ok min_weights
             /\ w' = installed min_weights wl
       | None => w' = wl
       end.
Proof.
  rewrite train_run.
  destruct (restart_loop _ minimizer (Z.to_nat iterations) (None, PosInf) w)
    as [[[best min_error] | e] wl] eqn:Hloop; [| discriminate].
  destruct (restart_loop_tracks Hloop) as (rs & Htrace & Hlen & Htracks).
  destruct best as [r |].
  - destruct (reshape_vector (np_matrix (x r)) (dimensions (nnet w)))
      as [min_weights | e] eqn:Hreshape; [| discriminate].
    intros [= <- <-]. exists rs, wl, min_error.
    split; [exact Htrace |]. split; [exact Hlen |].
    split; [exact Htracks |].
    exists min_weights. split; [exact Hreshape | reflexivity].
  - intros [= <- <-]. exists rs, wl, min_error.
    split; [exact Htrace |]. split; [exact Hlen |].
    split; [exact Htracks | reflexivity].
Qed.

(** C4, amended. [train] returns, among the results of its restarts that
    are successful and whose [fun] is below +infinity, the first one whose
    [fun] is smallest: every eligible result seen before it has a strictly
    larger [fun], no eligible result seen after it has a smaller one.  It
    returns [None] when no result is successful with [fun] below
    +infinity. *)
Theorem train_returns_first_smallest (w w' : world R E)
    (res : option (Result R)) :
  train X y learn_rate errfn minimizer iterations w = (Ok res, w') ->
  exists rs wl,
    restart_trace (adapter_of X y learn_rate errfn w) minimizer
      (Z.to_nat iterations) w = (Ok rs, wl)
    /\ length rs = Z.to_nat iterations
    /\ first_smallest candidate rs res.
Proof.
  intros Htrain.
  destruct (train_returns Htrain)
    as (rs & wl & min_error & Htrace & Hlen & [_ Hsel] & _).
  exists rs, wl. repeat split; assumption.
Qed.

(** C5, amended. After [train] returns: if a restart produced a
    successful result with [fun] below +infinity, [train] returns the best
    such result and the state is the one the last restart left with
    [nnet.weights] replaced by that result's [x], reshaped with the
    [dimensions] read before the loop; otherwise [train] returns [None]
    and the state, hence the network, is as the last restart left it. *)
Theorem train_commits_best (w w' : world R E) (res : option (Result R)) :
  train X y learn_rate errfn minimizer iterations w = (Ok res, w') ->
  exists rs wl,
    restart_trace (adapter_of X y learn_rate errfn w) minimizer
      (Z.to_nat iterations) w = (Ok rs, wl)
    /\ ((exists r, In r rs /\ candidate r = true) <-> res <> None)
    /\ match res with
       | Some r =>
           first_smallest candidate rs (Some r)
           /\ exists min_weights,
                reshape_vector (np_matrix (x r)) (dimensions (nnet w))
                = Ok min_weights
                /\ w' = installed min_weights wl
       | None => w' = wl
       end.
Proof.
  intros Htrain.
  destruct (train_returns Htrain)
    as (rs & wl & min_error & Htrace & _ & [_ Hsel] & Hend).
  cbn [fst] in Hsel. exists rs, wl. split; [exact Htrace |].
  destruct res as [r |].
  - split; [| split; assumption].
    split; [discriminate |]. intros _.
    destruct Hsel as (before & after & -> & Hcand & _).
    exists r. split; [| exact Hcand].
    apply in_or_app. right. left. reflexivity.
  - split; [| exact Hend].
    split; [| congruence].
    intros (r & Hin & Hcand). rewrite (Hsel _ Hin) in Hcand.
    discriminate Hcand.
Qed.

(** C10. After any number [k] of iterations of the restart loop, either
    [best_result] is [None] and [min_error] is +infinity, or [best_result]
    is one of the results the minimizer returned in these iterations, its
    [success] is true and [min_error] is its [fun]; what [train] returns
    is the [best_result] of the completed loop, hence [None] or one of the
    minimizer's results as it was returned. *)
Theorem restart_loop_keeps_invariant (w : world R E) :
  (forall (k : nat) (wk : world R E) (best_result : option (Result R))
          (min_error : pyfloat),
      restart_loop (adapter_of X y learn_rate errfn w) minimizer k
        (None, PosInf) w = (Ok (best_result, min_error), wk) ->
      exists rs,
        restart_trace (adapter_of X y learn_rate errfn w) minimizer k w
        = (Ok rs, wk)
        /\ length rs = k
        /\ loop_invariant rs (best_result, min_error))
  /\ (forall (w' : world R E) (res : option (Result R)),
        train X y learn_rate errfn minimizer iterations w = (Ok res, w') ->
        exists rs wl min_error,
          restart_trace (adapter_of X y learn_rate errfn w) minimizer
            (Z.to_nat iterations) w = (Ok rs, wl)
          /\ loop_invariant rs (res, min_error)).
Proof.
  split.
  - intros k wk best_result min_error Hloop.
    destruct (restart_loop_tracks Hloop) as (rs & Htrace & Hlen & Htracks).
    exists rs. repeat split; try assumption.
    apply tracks_invariant, Htracks.
  - intros w' res Htrain.
    destruct (train_returns Htrain)
      as (rs & wl & min_error & Htrace & _ & Htracks & _).
    exists rs, wl, min_error. split; [exact Htrace |].
    apply tracks_invariant, Htracks.
Qed.

End TrainResults.

(** A loop of [k + j] iterations passes through the state of the loop of
    [k] iterations. *)
Lemma restart_loop_prefix {R E : Type} {SR : Scalar R} {NC : NetworkClass R E}
    (fc : list R -> M R E (R * list R)) (minimizer : @Minimizer R E)
    (k j : nat) :
  forall (st : option (Result R) * pyfloat) (w : world R E),
    restart_loop fc minimizer (k + j) st w
    = match restart_loop fc minimizer k st w with
      | (Ok st', wk) => restart_loop fc minimizer j st' wk
      | (Raise e, wk) => (Raise e, wk)
      end.
Proof.
  induction k as [| k IH]; intros st w; [reflexivity |].
  cbn [Nat.add restart_loop]. unfold bind.
  destruct (restart fc minimizer w) as [[r | e] w1]; [| reflexivity].
  apply IH.
Qed.

(** *** Replayed runs *)

(** C4 as stated fails: the only restart returns a successful result whose
    [fun] is +infinity, and [train] returns [None]. *)
Lemma train_passes_over_infinite_cost :
  fst (replay_trace [r_inf] 1) = Ok [r_inf]
  /\ fst (replay_train [r_inf] 1) = Ok None
  /\ ~ first_smallest (@success Q) [r_inf] None.
Proof.
  split; [vm_compute; reflexivity |].
  split; [vm_compute; reflexivity |].
  intros Hnone. specialize (Hnone r_inf (or_introl eq_refl)).
  discriminate Hnone.
Qed.

(** C5 as stated fails on the same run: a restart produced a successful
    result, yet the network does not carry its [x]. *)
Lemma train_commits_nothing_on_infinite_cost :
  fst (replay_trace [r_inf] 1) = Ok [r_inf]
  /\ success r_inf = true
  /\ fst (replay_train [r_inf] 1) = Ok None
  /\ reshape_vector (np_matrix (x r_inf))
       (dimensions (NetworkClass := replay_class) net1)
     = Ok [mat [[5]]%Q]
  /\ weights (nnet (snd (replay_train [r_inf] 1))) <> [mat [[5]]%Q].
Proof.
  split; [vm_compute; reflexivity |]. split; [reflexivity |].
  split; [vm_compute; reflexivity |]. split; [vm_compute; reflexivity |].
  vm_compute. discriminate.
Qed.

Lemma train_returns_first_smallest_witness :
  exists rs wl,
    replay_trace [r_failed; r_first; r_tie] 3 = (Ok rs, wl)
    /\ length rs = 3
    /\ first_smallest candidate rs (Some r_first).
Proof.
  apply (@train_returns_first_smallest Q _ _ replay_class
           X1 y1 0%Q squaredError replay 3
           (world_of net1 [r_failed; r_first; r_tie])
           (snd (replay_train [r_failed; r_first; r_tie] 3))
           (Some r_first)).
  vm_compute. reflexivity.
Defined.

Lemma train_commits_best_witness :
  exists rs wl,
    replay_trace [r_failed; r_first; r_tie] 3 = (Ok rs, wl)
    /\ ((exists r, In r rs /\ candidate r = true) <-> Some r_first <> None)
    /\ first_smallest candidate rs (Some r_first)
    /\ exists min_weights,
         reshape_vector (np_matrix (x r_first))
           (dimensions (NetworkClass := replay_class) net1)
         = Ok min_weights
         /\ snd (replay_train [r_failed; r_first; r_tie] 3)
            = installed min_weights wl.
Proof.
  apply (@train_commits_best Q _ _ replay_class
           X1 y1 0%Q squaredError replay 3
           (world_of net1 [r_failed; r_first; r_tie])
           (snd (replay_train [r_failed; r_first; r_tie] 3))
           (Some r_first)).
  vm_compute. reflexivity.
Defined.

Lemma restart_loop_keeps_invariant_witness :
  (exists rs,
      replay_trace [r_failed; r_first; r_tie] 2
      = (Ok rs, snd (replay_trace [r_failed; r_first; r_tie] 2))
      /\ length rs = 2
      /\ loop_invariant rs (Some r_first, Finite 2))
  /\ (exists rs wl min_error,
        replay_trace [r_failed; r_first; r_tie] 3 = (Ok rs, wl)
        /\ loop_invariant rs (Some r_first, min_error)).
Proof.
  pose proof (@restart_loop_keeps_invariant Q _ _ replay_class
                X1 y1 0%Q squaredError replay 3
                (world_of net1 [r_failed; r_first; r_tie])) as Hinv.
  split.
  - apply (proj1 Hinv 2). vm_compute. reflexivity.
  - apply (proj2 Hinv (snd (replay_train [r_failed; r_first; r_tie] 3))).
    vm_compute. reflexivity.
Defined.

(** *** A run that evaluates the cost function

    With the minimizer that calls the adapter once, at the reset weights,
    [train] returns that point and leaves its vector, reshaped, in the
    network. *)
Example train_probe_run :
  let run := train (NC := network_class unit) X3 y3 1%Q squaredError probe 2
               (world_of net3 tt) in
  match fst run with
  | Ok (Some r) =>
      success r = true
      /\ x r = [0; 0; 0; 0; 0; 0; 0; 0; 0]%Q
      /\ float_lt (Finite 1) (fun_ r) = true
      /\ float_lt (fun_ r) (Finite (3 # 2)) = true
  | _ => False
  end
  /\ weights (nnet (snd run)) = [zeros 2 3; zeros 1 3]
  /\ stdout (snd run) = [].
Proof. vm_compute. repeat split. Qed.

(** * Further properties *)

(** ** Arrays written in place *)

Lemma array_set_length {A : Type} (i : nat) (v : A) (a : list A) :
  length (array_set i v a) = length a.
Proof.
  revert i. induction a as [| u a IH]; intros [| i]; cbn; congruence.
Qed.

Lemma array_set_twice {A : Type} (i : nat) (u v : A) (a : list A) :
  array_set i v (array_set i u a) = array_set i v a.
Proof.
  revert i. induction a as [| x a IH]; intros [| i]; cbn; congruence.
Qed.

Lemma array_set_same {A : Type} (i : nat) (d : A) (a : list A) :
  array_set i (nth i a d) a = a.
Proof.
  revert i. induction a as [| x a IH]; intros [| i]; cbn; congruence.
Qed.

Lemma nth_array_set_eq {A : Type} (i : nat) (v d : A) (a : list A) :
  i < length a -> nth i (array_set i v a) d = v.
Proof.
  revert i. induction a as [| x a IH]; intros [| i] Hi; cbn in *;
    try lia; [reflexivity |].
  apply IH. lia.
Qed.

Lemma nth_array_set_neq {A : Type} (i j : nat) (v d : A) (a : list A) :
  i <> j -> nth j (array_set i v a) d = nth j a d.
Proof.
  revert i j. induction a as [| x a IH]; intros [| i] [| j] Hij; cbn;
    try reflexivity; try lia.
  apply IH. lia.
Qed.

(** ** The numerical gradient *)

Section NumericalGradientFacts.
Context {R E G : Type} {SR : Scalar R} {GA : GradCheckArith R}.
Variables (costFn : list R -> M R E (R * G)) (e : R).

(** A completed run of the loop over the indices [k, ..., k+n-1]: the
    caller's array is as before, [grd] has changed at these indices only,
    where it holds the central differences, and the state reached is the
    one after the call at the last index lowered. *)
Lemma numgrad_loop_ok (n : nat) :
  forall (k : nat) (weights grd weights' grd' : list R) (w0 w' : world R E),
    numgrad_loop costFn e (map Z.of_nat (seq k n)) weights grd w0
    = (Ok tt, (weights', grd'), w') ->
    weights' = weights
    /\ length grd' = length grd
    /\ (forall i, ~ (k <= i < k + n) -> nth i grd' s_zero = nth i grd s_zero)
    /\ (forall i, k <= i < k + n -> i < length grd ->
                  central_difference costFn e weights i (nth i grd' s_zero))
    /\ (0 < n ->
        exists wb c g,
          costFn (array_set (k + n - 1)
                    (s_sub (nth (k + n - 1) weights s_zero) e) weights) wb
          = (Ok (c, g), w')).
Proof.
  induction n as [| n IH]; intros k weights grd weights' grd' w0 w' Hrun.
  - cbn in Hrun. injection Hrun as <- <- <-.
    repeat split; intros; try reflexivity; lia.
  - cbn [seq map numgrad_loop] in Hrun. rewrite Nat2Z.id in Hrun.
    destruct (costFn _ w0) as [[[c_inc g1] | ex] w1] eqn:Hinc;
      [| discriminate Hrun].
    rewrite array_set_twice in Hrun.
    destruct (costFn _ w1) as [[[c_dec g2] | ex] w2] eqn:Hdec;
      [| discriminate Hrun].
    destruct (cost_quotient _ _) as [q | ex] eqn:Hq; [| discriminate Hrun].
    rewrite array_set_twice, array_set_same in Hrun.
    destruct (IH _ _ _ _ _ _ _ Hrun) as (Hw & Hlen & Hout & Hin & Hlast).
    rewrite array_set_length in Hlen.
    split; [exact Hw |]. split; [exact Hlen |]. split; [| split].
    + intros i Hi. rewrite Hout by lia. apply nth_array_set_neq. lia.
    + intros i Hi Hlt. destruct (Nat.eq_dec i k) as [-> | Hne].
      * rewrite Hout by lia. rewrite nth_array_set_eq by exact Hlt.
        red. eauto 10.
      * apply Hin; [lia |]. rewrite array_set_length. exact Hlt.
    + intros _. destruct n as [| n].
      * cbn in Hrun. injection Hrun as _ _ <-.
        replace (k + 1 - 1) with k by lia. eauto.
      * destruct Hlast as (wb & c & g & Hcall); [lia |].
        replace (k + S (S n) - 1) with (S k + S n - 1) by lia. eauto.
Qed.

End NumericalGradientFacts.

Section NumericalGradientResults.
Context {R E G : Type} {SR : Scalar R} {GA : GradCheckArith R}.
Variables (costFn : list R -> M R E (R * G)) (e : R).

Lemma xrange_of_nat (n : nat) : xrange (Z.of_nat n) = map Z.of_nat (seq 0 n).
Proof. unfold xrange. rewrite Nat2Z.id. reflexivity. Qed.

Lemma np_empty_length (junk : nat -> R) (n : nat) :
  length (np_empty junk n) = n.
Proof. unfold np_empty. rewrite length_map, length_seq. reflexivity. Qed.

(** X1. When [computeNumericalGradient] returns, the caller's array holds
    its original entries again, the value is a column with one row per
    weight, and row [i] holds the central difference at index [i]. *)
Theorem numerical_gradient_restores_weights (junk : nat -> R)
    (weights weights' : list R) (w0 w' : world R E) (grad : matrix R) :
  computeNumericalGradient junk costFn weights e w0
  = (Ok grad, weights', w') ->
  weights' = weights
  /\ shape grad = (length weights, 1)
  /\ forall i, i < length weights ->
               central_difference costFn e weights i (get grad i 0).
Proof.
  unfold computeNumericalGradient. rewrite xrange_of_nat.
  destruct (numgrad_loop _ _ _ _ _ _) as [[[[] | ex] [ws grd]] w1] eqn:Hloop;
    [| discriminate].
  intros [= <- <- <-].
  destruct (numgrad_loop_ok Hloop) as (Hw & Hlen & _ & Hin & _).
  rewrite np_empty_length in Hlen, Hin.
  split; [exact Hw |]. split; [reflexivity |].
  intros i Hi.
  change (get (Mat (length weights) 1 (map (fun g => [g]) grd)) i 0)
    with (get (Mat (length grd) 1 (map (fun g => [g]) grd)) i 0).
  rewrite get_column. apply Hin; lia.
Qed.

(** X2. For a cost function whose cost is a function [f] of the vector
    alone, row [i] of the numerical gradient is
    [(f(weights + e at i) - f(weights - e at i)) / (2*e)]. *)
Theorem numerical_gradient_of_cost (f : list R -> R) (junk : nat -> R)
    (weights weights' : list R) (w0 w' : world R E) (grad : matrix R) :
  (forall v w, exists g w1, costFn v w = (Ok (f v, g), w1)) ->
  computeNumericalGradient junk costFn weights e w0
  = (Ok grad, weights', w') ->
  forall i,
    i < length weights ->
    cost_quotient
      (s_sub (f (array_set i (s_add (nth i weights s_zero) e) weights))
             (f (array_set i (s_sub (nth i weights s_zero) e) weights)))
      (s_mul (s_of_nat 2) e)
    = Ok (get grad i 0).
Proof.
  intros Hf Hrun i Hi. revert Hrun.
  unfold computeNumericalGradient. rewrite xrange_of_nat.
  destruct (numgrad_loop _ _ _ _ _ _) as [[[[] | ex] [ws grd]] w1] eqn:Hloop;
    [| discriminate].
  intros [= <- <- <-].
  destruct (numgrad_loop_ok Hloop) as (_ & Hlen & _ & Hin & _).
  rewrite np_empty_length in Hlen, Hin.
  change (get (Mat (length weights) 1 (map (fun g => [g]) grd)) i 0)
    with (get (Mat (length grd) 1 (map (fun g => [g]) grd)) i 0).
  rewrite get_column.
  destruct (Hin i) as (wa & c_inc & g1 & wb & c_dec & g2 & wc & Hinc & Hdec
                       & Hq); [lia | lia |].
  destruct (Hf (array_set i (s_add (nth i weights s_zero) e) weights) wa)
    as (g1' & wb' & Hinc').
  destruct (Hf (array_set i (s_sub (nth i weights s_zero) e) weights) wb)
    as (g2' & wc' & Hdec').
  rewrite Hinc' in Hinc. rewrite Hdec' in Hdec.
  injection Hinc as -> _ _. injection Hdec as -> _ _. exact Hq.
Qed.

(** The loop run on two [grd] arrays that agree below [k]: same outcome,
    same array of the caller, same state, and equal [grd] arrays at the
    end. *)
Lemma numgrad_loop_junk (n : nat) :
  forall (k : nat) (weights grd1 grd2 : list R) (w0 : world R E),
    length grd1 = length grd2 ->
    k + n = length grd1 ->
    (forall i, i < k -> nth i grd1 s_zero = nth i grd2 s_zero) ->
    let run1 := numgrad_loop costFn e (map Z.of_nat (seq k n)) weights grd1 w0
    in
    let run2 := numgrad_loop costFn e (map Z.of_nat (seq k n)) weights grd2 w0
    in
    fst (fst run1) = fst (fst run2)
    /\ fst (snd (fst run1)) = fst (snd (fst run2))
    /\ snd run1 = snd run2
    /\ (fst (fst run1) = Ok tt -> snd (snd (fst run1)) = snd (snd (fst run2))).
Proof.
  induction n as [| n IH]; intros k weights grd1 grd2 w0 Hlen Hk Hagree.
  - cbn. repeat split. intros _.
    apply (nth_ext _ _ s_zero s_zero Hlen). intros i Hi. apply Hagree. lia.
  - cbn [seq map numgrad_loop]. rewrite Nat2Z.id.
    destruct (costFn _ w0) as [[[c_inc g1] | ex] w1]; [| cbn; repeat split; discriminate].
    destruct (costFn _ w1) as [[[c_dec g2] | ex] w2]; [| cbn; repeat split; discriminate].
    destruct (cost_quotient _ _) as [q | ex]; [| cbn; repeat split; discriminate].
    apply IH.
    + rewrite !array_set_length. exact Hlen.
    + rewrite array_set_length. lia.
    + intros i Hi. destruct (Nat.eq_dec i k) as [-> | Hne].
      * rewrite !nth_array_set_eq by lia. reflexivity.
      * rewrite !nth_array_set_neq by lia. apply Hagree. lia.
Qed.

(** X3. The uninitialised contents of [np.empty] never reach the caller:
    whatever they are, the outcome, the caller's array and the state are
    the same. *)
Theorem numerical_gradient_ignores_junk (junk1 junk2 : nat -> R)
    (weights : list R) (w0 : world R E) :
  computeNumericalGradient junk1 costFn weights e w0
  = computeNumericalGradient junk2 costFn weights e w0.
Proof.
  unfold computeNumericalGradient. rewrite xrange_of_nat.
  pose proof (@numgrad_loop_junk (length weights) 0 weights
                (np_empty junk1 (length weights))
                (np_empty junk2 (length weights)) w0) as Hjunk.
  cbv zeta in Hjunk.
  destruct Hjunk as (Hres & Hws & Hw & Hgrd).
  - rewrite !np_empty_length. reflexivity.
  - rewrite np_empty_length. reflexivity.
  - intros i Hi. lia.
  - destruct (numgrad_loop _ _ _ _ (np_empty junk1 _) _)
      as [[r1 [ws1 g1]] w1].
    destruct (numgrad_loop _ _ _ _ (np_empty junk2 _) _)
      as [[r2 [ws2 g2]] w2].
    cbn [fst snd] in *. subst r2 ws2 w2.
    destruct r1 as [[] | ex]; [| reflexivity].
    rewrite (Hgrd eq_refl). reflexivity.
Qed.

(** A failed run of the loop leaves one entry of the caller's array raised
    or lowered by [e]. *)
Lemma numgrad_loop_fail (n : nat) :
  forall (k : nat) (weights grd weights' grd' : list R) (w0 w' : world R E)
         (ex : exn),
    numgrad_loop costFn e (map Z.of_nat (seq k n)) weights grd w0
    = (Raise ex, (weights', grd'), w') ->
    exists i,
      k <= i < k + n
      /\ (weights' = array_set i (s_add (nth i weights s_zero) e) weights
          \/ weights' = array_set i (s_sub (nth i weights s_zero) e) weights).
Proof.
  induction n as [| n IH]; intros k weights grd weights' grd' w0 w' ex Hrun.
  - discriminate Hrun.
  - cbn [seq map numgrad_loop] in Hrun. rewrite Nat2Z.id in Hrun.
    destruct (costFn _ w0) as [[[c_inc g1] | ex1] w1].
    2:{ injection Hrun as _ <- _ _. exists k. split; [lia | left; reflexivity]. }
    rewrite array_set_twice in Hrun.
    destruct (costFn _ w1) as [[[c_dec g2] | ex2] w2].
    2:{ injection Hrun as _ <- _ _. exists k. split; [lia | right; reflexivity]. }
    destruct (cost_quotient _ _) as [q | ex3].
    2:{ injection Hrun as _ <- _ _. exists k. split; [lia | right; reflexivity]. }
    rewrite array_set_twice, array_set_same in Hrun.
    destruct (IH _ _ _ _ _ _ _ _ Hrun) as (i & Hi & Hor).
    exists i. split; [lia | exact Hor].
Qed.

(** X4. When [computeNumericalGradient] raises, the caller's array is not
    restored: the entry that was being probed is left holding its value
    raised or lowered by [e]. *)
Theorem numerical_gradient_failure_leaves_perturbation (junk : nat -> R)
    (weights weights' : list R) (w0 w' : world R E) (ex : exn) :
  computeNumericalGradient junk costFn weights e w0
  = (Raise ex, weights', w') ->
  exists i,
    i < length weights
    /\ (weights' = array_set i (s_add (nth i weights s_zero) e) weights
        \/ weights' = array_set i (s_sub (nth i weights s_zero) e) weights).
Proof.
  unfold computeNumericalGradient. rewrite xrange_of_nat.
  destruct (numgrad_loop _ _ _ _ _ _) as [[[[] | ex'] [ws grd]] w1] eqn:Hloop;
    [discriminate |].
  intros [= <- <- <-].
  destruct (numgrad_loop_fail Hloop) as (i & Hi & Hor).
  exists i. split; [lia | exact Hor].
Qed.

End NumericalGradientResults.

(** ** The adapter and the network *)

Section AdapterEffects.
Context {R E : Type} {SR : Scalar R} {NC : NetworkClass R E}.
Variables (X y : matrix R) (learn_rate : R) (errfn : ErrorFn R).
Variable computeGrad : bool.
Variable dims : list (nat * nat).

(** The state the adapter reaches is the one [costfn] reaches. *)
Lemma flattened_costfn_state
    (costfn : list (matrix R) -> M R E (@costfn_out R))
    (v : list R) (mats : list (matrix R)) (w : world R E) :
  reshape_vector (np_matrix v) dims = Ok mats ->
  snd (flattened_costfn costfn dims v w) = snd (costfn mats w).
Proof.
  intros Hre. unfold flattened_costfn, bind, lift, ret. rewrite Hre.
  destruct (costfn mats w) as [[out | ex] w1]; [| reflexivity].
  destruct (unpack out) as [[cost grad] | ex]; [| reflexivity].
  cbn [unroll_matrices].
  destruct (first_row _); reflexivity.
Qed.

Lemma flattened_costfn_rejects
    (costfn : list (matrix R) -> M R E (@costfn_out R))
    (v : list R) (ex : exn) (w : world R E) :
  reshape_vector (np_matrix v) dims = Raise ex ->
  flattened_costfn costfn dims v w = (Raise ex, w).
Proof.
  intros Hre. unfold flattened_costfn, bind, lift. rewrite Hre. reflexivity.
Qed.

Lemma flattened_costfn_installs (v : list R) (mats : list (matrix R))
    (w : world R E) :
  reshape_vector (np_matrix v) dims = Ok mats ->
  let run := flattened_costfn
               (create_costfn X y learn_rate errfn computeGrad) dims v w in
  nnet (snd run) = with_weights mats (nnet w) /\ ext (snd run) = ext w.
Proof.
  intros Hre. cbv zeta. rewrite (flattened_costfn_state _ w Hre), costfn_run.
  destruct (evaluate _ _ _ _ _ _ _) as [out | ex]; [split; reflexivity |].
  destruct (is_ValueError ex); split; reflexivity.
Qed.

(** X5. A vector that does not fit [dimensions] makes the adapter raise
    before the network is touched and without the diagnostic of [costfn];
    a vector that fits is installed in the network, reshaped, whether or
    not the evaluation then succeeds. *)
Theorem adapter_installs_reshaped_vector (v : list R) (w : world R E) :
  let run := flattened_costfn
               (create_costfn X y learn_rate errfn computeGrad) dims v w in
  (forall ex, reshape_vector (np_matrix v) dims = Raise ex ->
              run = (Raise ex, w))
  /\ (forall mats, reshape_vector (np_matrix v) dims = Ok mats ->
                   nnet (snd run) = with_weights mats (nnet w)
                   /\ ext (snd run) = ext w).
Proof.
  cbv zeta. split.
  - intros ex Hre. apply flattened_costfn_rejects, Hre.
  - intros mats Hre. apply (flattened_costfn_installs w Hre).
Qed.

End AdapterEffects.

Section GradientCheckOfAdapter.
Context {R E : Type} {SR : Scalar R} {NC : NetworkClass R E}
        {GA : GradCheckArith R}.
Variables (X y : matrix R) (learn_rate : R) (errfn : ErrorFn R).
Variable dims : list (nat * nat).

(** X6. A gradient check of the adapter of [train] does not leave the
    network at the point that was checked: when it returns, the network
    carries the vector whose last entry is lowered by [e]. *)
Theorem numerical_gradient_leaves_network_perturbed (junk : nat -> R)
    (weights weights' : list R) (e : R) (w0 w' : world R E)
    (grad : matrix R) :
  computeNumericalGradient junk
    (flattened_costfn (create_costfn X y learn_rate errfn true) dims)
    weights e w0
  = (Ok grad, weights', w') ->
  weights <> [] ->
  let last := length weights - 1 in
  exists mats,
    reshape_vector
      (np_matrix (array_set last (s_sub (nth last weights s_zero) e) weights))
      dims
    = Ok mats
    /\ weights_of (nnet w') = mats.
Proof.
  intros Hrun Hne last. revert Hrun.
  unfold computeNumericalGradient. rewrite xrange_of_nat.
  destruct (numgrad_loop _ _ _ _ _ _) as [[[[] | ex] [ws grd]] w1] eqn:Hloop;
    [| discriminate].
  intros [= _ _ <-].
  destruct (numgrad_loop_ok Hloop) as (_ & _ & _ & _ & Hlast).
  destruct Hlast as (wb & c & g & Hcall).
  { destruct weights; [contradiction | cbn; lia]. }
  cbn [Nat.add] in Hcall. fold last in Hcall.
  destruct (reshape_vector _ dims) as [mats | ex] eqn:Hre.
  - exists mats. split; [reflexivity |].
    destruct (flattened_costfn_installs X y learn_rate errfn true wb Hre)
      as [Hnn _].
    rewrite Hcall in Hnn. cbn [snd] in Hnn. unfold weights_of.
    rewrite Hnn. reflexivity.
  - rewrite (flattened_costfn_rejects _ wb Hre) in Hcall. discriminate Hcall.
Qed.

End GradientCheckOfAdapter.

(** ** More on [costfn] *)

Section CostfnMore.
Context {R E : Type} {SR : Scalar R} {NC : NetworkClass R E}.
Variables (X y : matrix R) (learn_rate : R) (errfn : ErrorFn R).

(** X7. The cost does not depend on whether the gradient is requested:
    when [costfn] returns [(cost, grads)], the closure created with
    [computeGrad=False] returns that [cost], and reaches the same state. *)
Theorem costfn_cost_agrees (ws : list (matrix R)) (w w' : world R E)
    (cost : R) (grads : list (matrix R)) :
  create_costfn X y learn_rate errfn true ws w
  = (Ok (CostGrads cost grads), w') ->
  create_costfn X y learn_rate errfn false ws w = (Ok (CostOnly cost), w').
Proof.
  rewrite !costfn_run.
  destruct (evaluate X y learn_rate errfn true _ ws) as [out | ex] eqn:Hev;
    [| discriminate].
  intros [= -> <-]. unfold evaluate in *.
  bind_inv Hev as p. destruct p as [[z a] c]. bind_inv Hev as h.
  bind_inv Hev as d. bind_inv Hev as grads'.
  injection Hev as -> _. cbn [rbind]. rewrite Eh. reflexivity.
Qed.

(** X8. Unless it raises a ValueError, a call of [costfn] changes nothing
    but [nnet.weights]: nothing is printed, on success and on any other
    exception alike. *)
Theorem costfn_silent_unless_ValueError (computeGrad : bool)
    (ws : list (matrix R)) (w : world R E) :
  let run := create_costfn X y learn_rate errfn computeGrad ws w in
  (forall ex, fst run = Raise ex -> exn_kind ex <> ValueError) ->
  snd run = installed ws w.
Proof.
  cbv zeta. rewrite costfn_run.
  destruct (evaluate _ _ _ _ _ _ _) as [out | ex]; [reflexivity |].
  intros Hkind. specialize (Hkind ex eq_refl). cbn [snd].
  unfold is_ValueError. destruct (exn_kind ex); try reflexivity.
  contradiction.
Qed.

(** X9. With a dataset of no example and at least one weight matrix,
    [costfn] never returns a gradient: it raises; and when the forward pass
    and the deltas go through, what it raises is the ZeroDivisionError of
    [1. / m], which the handler does not catch, so nothing is printed. *)
Theorem costfn_empty_batch (ws : list (matrix R)) (w : world R E) :
  ncols X = 0 ->
  ws <> [] ->
  let nn := with_weights ws (nnet w) in
  let b := if bias nn then 1 else 0 in
  let run := create_costfn X y learn_rate errfn true ws w in
  (exists ex, fst run = Raise ex)
  /\ (forall z a cost h d,
        calculateCost nn X y errfn learn_rate = Ok (z, a, cost) ->
        py_getitem a (-1) = Ok h ->
        deltas y errfn nn ws z h b = Ok d ->
        run = (Raise (Exn ZeroDivisionError "float division by zero"),
               installed ws w)).
Proof.
  intros Hm Hws nn b run.
  assert (Hgrad : forall a d,
             gradients X learn_rate nn ws a d b
             = Raise (Exn ZeroDivisionError "float division by zero")).
  { intros a d. unfold gradients, weights_of. cbn [nn with_weights weights].
    rewrite xrange_of_nat. destruct ws as [| w0 ws']; [contradiction |].
    cbn [length seq map gradients_loop]. unfold div_by_m.
    rewrite Hm. reflexivity. }
  subst run. rewrite costfn_run. fold nn. unfold evaluate. fold b. split.
  - destruct (calculateCost nn X y errfn learn_rate) as [[[z a] c] | ex];
      cbn [rbind]; [| eexists; reflexivity].
    destruct (py_getitem a (-1)) as [h | ex]; cbn [rbind];
      [| eexists; reflexivity].
    destruct (deltas y errfn nn ws z h b) as [d | ex]; cbn [rbind];
      [| eexists; reflexivity].
    rewrite Hgrad. cbn [rbind]. eexists. reflexivity.
  - intros z a cost h d Hc Hh Hd. rewrite Hc. cbn [rbind].
    rewrite Hh. cbn [rbind]. rewrite Hd. cbn [rbind]. rewrite Hgrad.
    reflexivity.
Qed.

End CostfnMore.

(** ** What the deltas do not read *)

Section DeltasFrame.
Context {R : Type} {SR : Scalar R}.
Variables (nn : NeuralNetwork R) (z : list (matrix R)) (b : nat).

Lemma backprop_loop_skips_first (w0 w0' : matrix R) (rest : list (matrix R))
    (idx : list Z) :
  Forall (fun i => (1 <= i)%Z) idx ->
  forall d,
    backprop_loop nn (w0 :: rest) z b idx d
    = backprop_loop nn (w0' :: rest) z b idx d.
Proof.
  induction 1 as [| i idx Hi Hidx IH]; intros d; [reflexivity |].
  cbn [backprop_loop].
  assert (Hget : py_getitem (w0 :: rest) i = py_getitem (w0' :: rest) i).
  { unfold py_getitem. cbn [length].
    destruct (Z.ltb_spec i 0) as [Hneg | _]; [lia |].
    destruct (_ && _); [| reflexivity].
    destruct (Z.to_nat i) as [| n] eqn:Hn; [lia | reflexivity]. }
  rewrite Hget.
  destruct (py_getitem d 0) as [o | ex]; [| reflexivity]. cbn [rbind].
  destruct (py_getitem (layers nn) i) as [layer | ex]; [| reflexivity].
  cbn [rbind].
  destruct (py_getitem (w0' :: rest) i) as [wi | ex]; [| reflexivity].
  cbn [rbind].
  destruct (py_getitem z i) as [zi | ex]; [| reflexivity]. cbn [rbind].
  destruct (act_grad _ zi) as [g | ex]; [| reflexivity]. cbn [rbind].
  destruct (as_matrix o) as [prevD | ex]; [| reflexivity]. cbn [rbind].
  destruct (matmul _ prevD) as [t | ex]; [| reflexivity]. cbn [rbind].
  destruct (np_multiply g t) as [di | ex]; [| reflexivity]. cbn [rbind].
  apply IH.
Qed.

Lemma xrange_down_from_one (start : Z) :
  Forall (fun i => (1 <= i)%Z) (xrange_down start 0).
Proof.
  unfold xrange_down. apply Forall_forall. intros i Hi.
  apply in_map_iff in Hi. destruct Hi as (k & <- & Hk).
  apply in_seq in Hk. lia.
Qed.

(** X11. The deltas never read the first weight matrix: replacing
    [weights[0]] by any other matrix changes neither the deltas nor the
    way their computation fails. *)
Theorem deltas_ignore_first_weights (errfn : ErrorFn R) (h y : matrix R)
    (w0 w0' : matrix R) (rest : list (matrix R)) :
  deltas y errfn nn (w0 :: rest) z h b = deltas y errfn nn (w0' :: rest) z h b.
Proof.
  unfold deltas.
  destruct (py_getitem (layers nn) (-1)) as [l | ex]; [| reflexivity].
  cbn [rbind]. destruct (py_getitem z (-1)) as [zl | ex]; [| reflexivity].
  cbn [rbind]. destruct (act_grad _ zl) as [g | ex]; [| reflexivity].
  cbn [rbind]. destruct (err_grad errfn h y) as [eg | ex]; [| reflexivity].
  cbn [rbind]. destruct (np_multiply g eg) as [seed | ex]; [| reflexivity].
  cbn [rbind].
  rewrite (backprop_loop_skips_first w0 w0' rest (xrange_down_from_one _)).
  reflexivity.
Qed.

End DeltasFrame.

(** ** More on the restart loop *)

Lemma float_lt_irrefl (a : pyfloat) : float_lt a a = false.
Proof.
  destruct a as [| p | |]; cbn; try reflexivity.
  unfold Qltb. apply Z.ltb_irrefl.
Qed.

Lemma float_lt_asym (a b : pyfloat) :
  float_lt a b = true -> float_lt b a = false.
Proof.
  intros Hab. destruct (float_lt b a) eqn:Hba; [| reflexivity].
  rewrite <- (float_lt_irrefl a). symmetry.
  eapply float_lt_trans; eassumption.
Qed.

Section SelectionMore.
Context {R : Type}.

(** No eligible result has a smaller [fun] than the selected one. *)
Lemma first_smallest_lower_bound (rs : list (Result R)) (r c : Result R) :
  first_smallest candidate rs (Some r) ->
  In c rs -> candidate c = true ->
  float_lt (fun_ c) (fun_ r) = false.
Proof.
  intros (before & after & -> & Hr & Hbefore & Hafter) Hin Hc.
  apply in_app_or in Hin. destruct Hin as [Hin | [<- | Hin]].
  - apply float_lt_asym, Hbefore; assumption.
  - apply float_lt_irrefl.
  - apply Hafter; assumption.
Qed.

Lemma first_smallest_In (rs : list (Result R)) (r : Result R) :
  first_smallest candidate rs (Some r) -> In r rs /\ candidate r = true.
Proof.
  intros (before & after & -> & Hr & _). split; [| exact Hr].
  apply in_or_app. right. left. reflexivity.
Qed.

(** X12. The cost that is kept does not depend on the order of the
    restarts: for two orders of the same results, the loop records a result
    in both or in neither, and neither [min_error] is below the other.
    (Which of several results of that cost is kept does depend on the
    order.) *)
Theorem selection_order_independent (rs rs' : list (Result R)) :
  Permutation rs rs' ->
  let st := fold_left keep_best rs (None, PosInf) in
  let st' := fold_left keep_best rs' (None, PosInf) in
  (fst st = None <-> fst st' = None)
  /\ float_lt (snd st) (snd st') = false
  /\ float_lt (snd st') (snd st) = false.
Proof.
  intros Hperm st st'.
  pose proof (fold_keep_best_tracks rs (tracks_init (R := R))) as Ht.
  pose proof (fold_keep_best_tracks rs' (tracks_init (R := R))) as Ht'.
  cbn [app] in Ht, Ht'. fold st in Ht. fold st' in Ht'.
  destruct Ht as [Hmin Hsel], Ht' as [Hmin' Hsel'].
  rewrite Hmin, Hmin'.
  destruct (fst st) as [r |], (fst st') as [r' |].
  - destruct (first_smallest_In Hsel) as [Hin Hc].
    destruct (first_smallest_In Hsel') as [Hin' Hc'].
    split; [split; discriminate |]. split.
    + apply (first_smallest_lower_bound Hsel'); [| exact Hc].
      eapply Permutation_in; eassumption.
    + apply (first_smallest_lower_bound Hsel); [| exact Hc'].
      eapply Permutation_in; [apply Permutation_sym |]; eassumption.
  - destruct (first_smallest_In Hsel) as [Hin Hc].
    rewrite (Hsel' r) in Hc; [discriminate Hc |].
    eapply Permutation_in; eassumption.
  - destruct (first_smallest_In Hsel') as [Hin' Hc'].
    rewrite (Hsel r') in Hc'; [discriminate Hc' |].
    eapply Permutation_in; [apply Permutation_sym |]; eassumption.
  - repeat split; reflexivity.
Qed.

(** Seeing more results never raises [min_error] and never drops a
    recorded result. *)
Lemma fold_keep_best_decreases (rs : list (Result R)) :
  forall st : option (Result R) * pyfloat,
    float_lt (snd st) (snd (fold_left keep_best rs st)) = false
    /\ (fst st <> None -> fst (fold_left keep_best rs st) <> None).
Proof.
  induction rs as [| r rs IH]; intros st.
  - cbn. split; [apply float_lt_irrefl | auto].
  - cbn [fold_left]. destruct (IH (keep_best st r)) as [Hlt Hsome].
    unfold keep_best in *.
    destruct (success r && float_lt (fun_ r) (snd st)) eqn:Htest.
    + apply andb_prop in Htest. destruct Htest as [_ Hr].
      cbn [fst snd] in *. split; [| intros _; apply Hsome; discriminate].
      destruct (float_lt (snd st) _) eqn:Hup; [| reflexivity].
      rewrite <- Hlt. symmetry. eapply float_lt_trans; eassumption.
    + split; assumption.
Qed.

End SelectionMore.

Section TrainMore.
Context {R E : Type} {SR : Scalar R} {NC : NetworkClass R E}.
Variables (X y : matrix R) (learn_rate : R) (errfn : ErrorFn R).
Variables (minimizer : @Minimizer R E).

(** X13. More restarts never worsen the outcome of the loop: the loop of
    [k + j] iterations passes through the state of the loop of [k]
    iterations, its [min_error] is not above that one, and a result that
    was recorded is only ever replaced, never dropped. *)
Theorem more_restarts_never_worsen
    (fc : list R -> M R E (R * list R)) (k j : nat)
    (w w2 : world R E) (st2 : option (Result R) * pyfloat) :
  restart_loop fc minimizer (k + j) (None, PosInf) w = (Ok st2, w2) ->
  exists st1 w1,
    restart_loop fc minimizer k (None, PosInf) w = (Ok st1, w1)
    /\ restart_loop fc minimizer j st1 w1 = (Ok st2, w2)
    /\ float_lt (snd st1) (snd st2) = false
    /\ (fst st1 <> None -> fst st2 <> None).
Proof.
  rewrite restart_loop_prefix.
  destruct (restart_loop fc minimizer k (None, PosInf) w)
    as [[st1 | ex] w1]; [| discriminate].
  intros Hrest. exists st1, w1. split; [reflexivity |].
  split; [exact Hrest |].
  rewrite restart_loop_trace in Hrest.
  destruct (restart_trace fc minimizer j w1) as [[rs | ex] w'];
    [| discriminate].
  injection Hrest as <- _. apply fold_keep_best_decreases.
Qed.



End TrainMore.

(** ** Well-shaped inputs *)

Lemma nth_error_in_range {A : Type} (l : list A) (i : nat) :
  i < length l -> exists a, nth_error l i = Some a.
Proof.
  intros Hi. destruct (nth_error l i) as [a |] eqn:Hn; [eauto |].
  apply nth_error_None in Hn. lia.
Qed.

Lemma skipn_nth_error {A : Type} (l : list A) (k : nat) (a : A) :
  nth_error l k = Some a -> skipn k l = a :: skipn (S k) l.
Proof.
  revert k. induction l as [| u l IH]; intros [| k] Hk; try discriminate.
  - injection Hk as ->. reflexivity.
  - cbn [skipn]. apply IH. exact Hk.
Qed.

Section WellShaped.
Context {R : Type} {SR : Scalar R}.

Lemma np_multiply_same_shape (A B : matrix R) :
  shape A = shape B ->
  exists C, np_multiply A B = Ok C /\ shape C = shape A.
Proof.
  intros [= Hr Hc]. unfold np_multiply.
  rewrite <- Hr, <- Hc, !bdim_same. eexists. split; reflexivity.
Qed.

Lemma well_shaped_layer (b m : nat) (ws z a : list (matrix R)) :
  well_shaped b m ws z a ->
  forall i wi,
    nth_error ws i = Some wi ->
    exists zi zn ai,
      nth_error z i = Some zi /\ nth_error z (S i) = Some zn
      /\ nth_error a i = Some ai
      /\ shape zn = (nrows wi, m) /\ shape ai = (ncols wi, m)
      /\ ncols wi = nrows zi + b.
Proof.
  revert z a. induction ws as [| w0 ws IH]; intros z a Hc i wi Hi.
  - destruct i; discriminate Hi.
  - destruct z as [| zi [| zn z']]; try contradiction;
      destruct a as [| ai a']; try contradiction.
    cbn [well_shaped] in Hc. destruct Hc as (H1 & H2 & H3 & Hc).
    destruct i as [| i].
    + injection Hi as <-. exists zi, zn, ai. repeat split; assumption.
    + cbn [nth_error] in Hi. destruct (IH _ _ Hc i wi Hi)
        as (zi' & zn' & ai' & Hz1 & Hz2 & Ha & Hrest).
      exists zi', zn', ai'. repeat split; try assumption; apply Hrest.
Qed.

Lemma well_shaped_last (b m : nat) (ws z a : list (matrix R)) :
  well_shaped b m ws z a ->
  length z = S (length ws) /\ length a = S (length ws)
  /\ exists z_last h,
       nth_error z (length ws) = Some z_last
       /\ nth_error a (length ws) = Some h
       /\ shape h = shape z_last.
Proof.
  revert z a. induction ws as [| w0 ws IH]; intros z a Hc.
  - destruct z as [| zl [| ? ?]]; try contradiction;
      destruct a as [| h [| ? ?]]; try contradiction.
    cbn in Hc. repeat split. exists zl, h. repeat split. exact Hc.
  - destruct z as [| zi [| zn z']]; try contradiction;
      destruct a as [| ai a']; try contradiction.
    cbn [well_shaped] in Hc. destruct Hc as (_ & _ & _ & Hc).
    destruct (IH _ _ Hc) as (Hlz & Hla & zl & h & H1 & H2 & H3).
    cbn [length] in *. repeat split; try lia.
    exists zl, h. repeat split; assumption.
Qed.

Variables (nn : NeuralNetwork R) (ws z a : list (matrix R)) (b m : nat).
Hypothesis Hlayers : length (layers nn) = S (length ws).
Hypothesis Hact :
  forall layer, In layer (layers nn) -> act_total (activationfn layer).
Hypothesis Hshape : well_shaped b m ws z a.

(** On well-shaped input the loop over the hidden layers goes through,
    and every delta has the rows of its weight matrix. *)
Lemma backprop_loop_succeeds (k : nat) :
  forall d0 : list (option (matrix R)),
    k < length ws ->
    delta_shapes m d0 (skipn k ws) ->
    exists d,
      backprop_loop nn ws z b (xrange_down (Z.of_nat k) 0) d0 = Ok d
      /\ delta_shapes m d ws.
Proof.
  induction k as [| k IH]; intros d0 Hk Hd0.
  - exists d0. split; [reflexivity | exact Hd0].
  - destruct (nth_error_in_range Hk) as [wk Hwk].
    rewrite (skipn_nth_error Hwk) in Hd0.
    inversion Hd0 as [| o wk' rest ws' (dn & -> & Hdn) Hrest]; subst.
    destruct (@nth_error_in_range _ ws k) as [wj Hwj]; [lia |].
    destruct (@nth_error_in_range _ (layers nn) (S k)) as [layer Hlayer];
      [lia |].
    destruct (well_shaped_layer Hshape Hwj)
      as (_ & zn & _ & _ & Hzn & _ & Hzshape & _ & _).
    destruct (well_shaped_layer Hshape Hwk)
      as (zi & _ & _ & Hzi & _ & _ & _ & _ & Hcols).
    rewrite Hzn in Hzi. injection Hzi as <-.
    destruct (Hact (nth_error_In _ _ Hlayer) zn) as (g & Hg & Hgshape).
    rewrite xrange_down_step by lia. cbn [backprop_loop].
    change (py_getitem (Some dn :: rest) 0)
      with (Ok (A := option (matrix R)) (Some dn)).
    cbn [rbind].
    rewrite (py_getitem_nth Hlayer). cbn [rbind].
    rewrite (py_getitem_nth Hwk). cbn [rbind].
    rewrite (py_getitem_nth Hzn). cbn [rbind].
    rewrite Hg. cbn [rbind as_matrix].
    injection Hdn as Hdr Hdc.
    unfold matmul. cbn [transpose slice_cols_from tabulate nrows ncols].
    rewrite Hdr, Nat.eqb_refl. cbn [rbind].
    match goal with
    | |- context [np_multiply g ?t] =>
        destruct (@np_multiply_same_shape g t) as (di & Hdi & Hdishape)
    end.
    { rewrite Hgshape, Hzshape. unfold shape. cbn [tabulate nrows ncols].
      injection Hzshape as Hzr _. f_equal; lia. }
    rewrite Hdi. cbn [rbind].
    replace (Z.of_nat (S k) - 1)%Z with (Z.of_nat k) by lia.
    apply IH; [lia |].
    rewrite (skipn_nth_error Hwj), (skipn_nth_error Hwk).
    constructor; [| exact Hd0].
    exists di. split; [reflexivity |]. congruence.
Qed.

End WellShaped.

Lemma Forall2_nth_error_right {A B : Type} (P : A -> B -> Prop)
    (l : list A) (l' : list B) :
  Forall2 P l l' ->
  forall i y, nth_error l' i = Some y ->
              exists x, nth_error l i = Some x /\ P x y.
Proof.
  induction 1 as [| x y l l' Hxy Hrest IH]; intros [| i] y0 Hi;
    try discriminate.
  - injection Hi as <-. exists x. split; [reflexivity | exact Hxy].
  - apply IH. exact Hi.
Qed.

Lemma Forall2_of_nth_error {A B : Type} (P : A -> B -> Prop) (l : list A) :
  forall l' : list B,
    length l = length l' ->
    (forall i x y, nth_error l i = Some x -> nth_error l' i = Some y -> P x y) ->
    Forall2 P l l'.
Proof.
  induction l as [| x l IH]; intros [| y l'] Hlen Hnth; try discriminate.
  - constructor.
  - constructor; [apply (Hnth 0); reflexivity |].
    apply IH; [cbn in Hlen; lia |].
    intros i x' y' Hx Hy. apply (Hnth (S i)); assumption.
Qed.

Section WellShapedCostfn.
Context {R E : Type} {SR : Scalar R} {NC : NetworkClass R E}.
Variables (X y : matrix R) (learn_rate : R) (errfn : ErrorFn R).
Variables (nn : NeuralNetwork R) (ws z a : list (matrix R)) (b : nat).
Variable h : matrix R.
Hypothesis Hlayers : length (layers nn) = S (length ws).
Hypothesis Hact :
  forall layer, In layer (layers nn) -> act_total (activationfn layer).
Hypothesis Herr : err_returns errfn a y.
Hypothesis Hshape : well_shaped b (ncols X) ws z a.
Hypothesis Hh : py_getitem a (-1) = Ok h.

(** On well-shaped input the deltas are computed, with the shapes of the
    data model. *)
Lemma deltas_succeed :
  exists d',
    deltas y errfn nn ws z h b = Ok (None :: d')
    /\ (ws <> [] -> delta_shapes (ncols X) d' ws).
Proof.
  destruct (well_shaped_last Hshape)
    as (Hlz & Hla & z_last & h' & Hzl & Hh' & Hhshape).
  destruct (Herr Hh) as (eg & Heg & Hegshape).
  rewrite py_getitem_minus_one, Hla in Hh.
  replace (Z.of_nat (S (length ws)) - 1)%Z with (Z.of_nat (length ws))
    in Hh by lia.
  rewrite (py_getitem_nth Hh') in Hh. injection Hh as <-.
  destruct (@nth_error_in_range _ (layers nn) (length ws))
    as [last_layer Hlast]; [lia |].
  destruct (Hact (nth_error_In _ _ Hlast) z_last) as (g & Hg & Hgshape).
  destruct (@np_multiply_same_shape _ _ g eg) as (seed & Hseed & Hsshape);
    [congruence |].
  unfold deltas.
  rewrite py_getitem_minus_one, Hlayers.
  replace (Z.of_nat (S (length ws)) - 1)%Z with (Z.of_nat (length ws)) by lia.
  rewrite (py_getitem_nth Hlast). cbn [rbind].
  rewrite py_getitem_minus_one, Hlz.
  replace (Z.of_nat (S (length ws)) - 1)%Z with (Z.of_nat (length ws)) by lia.
  rewrite (py_getitem_nth Hzl). cbn [rbind].
  rewrite Hg. cbn [rbind]. rewrite Heg. cbn [rbind].
  rewrite Hseed. cbn [rbind].
  destruct (Nat.eq_dec (length ws) 0) as [Hn | Hn].
  - rewrite xrange_down_nil by lia. cbn. eexists. split; [reflexivity |].
    intros Hne. destruct ws; [contradiction | discriminate Hn].
  - set (n := length ws - 1).
    replace (Z.of_nat (S (length ws)) - 2)%Z with (Z.of_nat n) by lia.
    replace (length ws) with (S n) in Hzl by lia.
    destruct (@nth_error_in_range _ ws n) as [wn Hwn]; [lia |].
    destruct (well_shaped_layer Hshape Hwn)
      as (_ & zn & _ & _ & Hzn & _ & Hznshape & _ & _).
    rewrite Hzl in Hzn. injection Hzn as <-.
    destruct (@backprop_loop_succeeds _ _ nn ws z a b (ncols X) Hlayers Hact
                Hshape n [Some seed]) as (d & Hd & Hdshape); [lia | |].
    + rewrite (skipn_nth_error Hwn).
      rewrite skipn_all2 by lia.
      constructor; [| constructor].
      exists seed. split; [reflexivity |]. congruence.
    + rewrite Hd. cbn [rbind]. exists d. split; [reflexivity |].
      intros _. exact Hdshape.
Qed.

(** On well-shaped input every gradient has a value, of the shape of its
    weight matrix. *)
Lemma gradient_step_ok (d' : list (option (matrix R))) (i : nat)
    (wi : matrix R) :
  delta_shapes (ncols X) d' ws ->
  ncols X <> 0 ->
  nth_error ws i = Some wi ->
  exists G,
    layer_gradient X learn_rate ws a (None :: d') b (Z.of_nat i) G
    /\ shape G = shape wi.
Proof.
  intros Hd Hm Hwi.
  destruct (Forall2_nth_error_right Hd Hwi) as (o & Ho & dn & -> & Hdn).
  destruct (well_shaped_layer Hshape Hwi)
    as (_ & _ & ai & _ & _ & Hai & _ & Haishape & _).
  injection Hdn as Hdr Hdc. injection Haishape as Har Hac.
  assert (Hun : exists unreg,
             unreg_grad X dn ai = Ok unreg
             /\ shape unreg = (nrows wi, ncols wi)).
  { unfold unreg_grad, matmul.
    cbn [scale transpose tabulate nrows ncols].
    rewrite Hdc, Hac, Nat.eqb_refl. eexists. split; [reflexivity |].
    unfold shape. cbn [tabulate nrows ncols]. congruence. }
  destruct Hun as (unreg & Hun & Hunshape).
  injection Hunshape as Hur Huc.
  assert (Hadd : exists G,
             iadd_cols_from b unreg (reg_grad X learn_rate b wi) = Ok G
             /\ shape G = shape wi).
  { unfold iadd_cols_from, reg_grad.
    cbn [scale slice_cols_from tabulate nrows ncols].
    rewrite Hur, Huc, !Nat.eqb_refl. cbn [orb andb].
    eexists. split; reflexivity. }
  destruct Hadd as (G & Hadd & HGshape).
  exists G. split.
  - exists dn, ai, wi, unreg. repeat split; try assumption.
    + replace (Z.of_nat i + 1)%Z with (Z.of_nat (S i)) by lia.
      apply py_getitem_nth. exact Ho.
    + apply py_getitem_nth. exact Hai.
    + apply py_getitem_nth. exact Hwi.
  - exact HGshape.
Qed.

Lemma gradients_loop_succeeds (d : list (option (matrix R))) (n : nat) :
  (forall i, i < n ->
             exists G, layer_gradient X learn_rate ws a d b (Z.of_nat i) G) ->
  forall (k start : nat) (grads0 : list (matrix R)),
    start + k <= n ->
    exists grads,
      gradients_loop X learn_rate ws a d b (map Z.of_nat (seq start k)) grads0
      = Ok grads.
Proof.
  intros Hstep. induction k as [| k IH]; intros start grads0 Hle.
  - exists grads0. reflexivity.
  - destruct (Hstep start)
      as (G & dn & ai & wi & unreg & Hdn & Hai & Hwi & Hm & Hun & Hadd);
      [lia |].
    cbn [seq map gradients_loop]. unfold div_by_m.
    destruct (Nat.eqb_spec (ncols X) 0) as [Hz | _]; [contradiction |].
    cbn [rbind]. rewrite Hdn. cbn [rbind as_matrix].
    rewrite Hai. cbn [rbind].
    unfold unreg_grad in Hun. rewrite Hun. cbn [rbind].
    rewrite Hwi. cbn [rbind].
    unfold reg_grad in Hadd. rewrite Hadd. cbn [rbind].
    apply IH. lia.
Qed.

Lemma layer_gradient_functional (d : list (option (matrix R))) (i : Z)
    (G G' : matrix R) :
  layer_gradient X learn_rate ws a d b i G ->
  layer_gradient X learn_rate ws a d b i G' ->
  G = G'.
Proof.
  intros (dn & ai & wi & unreg & Hdn & Hai & Hwi & _ & Hun & Hadd)
         (dn' & ai' & wi' & unreg' & Hdn' & Hai' & Hwi' & _ & Hun' & Hadd').
  rewrite Hdn in Hdn'. injection Hdn' as <-.
  rewrite Hai in Hai'. injection Hai' as <-.
  rewrite Hwi in Hwi'. injection Hwi' as <-.
  rewrite Hun in Hun'. injection Hun' as <-.
  rewrite Hadd in Hadd'. injection Hadd' as <-. reflexivity.
Qed.

(** On well-shaped input the evaluation with gradient goes through. *)
Lemma evaluate_succeeds (cost : R) :
  weights_of nn = ws ->
  (if bias nn then 1 else 0) = b ->
  calculateCost nn X y errfn learn_rate = Ok (z, a, cost) ->
  (ws <> [] -> ncols X <> 0) ->
  exists grads,
    evaluate X y learn_rate errfn true nn ws = Ok (CostGrads cost grads)
    /\ Forall2 (fun G wi => shape G = shape wi) grads ws.
Proof.
  intros Hws Hb Hcost Hm.
  destruct deltas_succeed as (d' & Hd & Hdshape).
  assert (Hloop : exists grads,
             gradients X learn_rate nn ws a (None :: d') b = Ok grads).
  { unfold gradients. rewrite Hws, xrange_of_nat.
    apply (@gradients_loop_succeeds (None :: d') (length ws));
      [| cbn; lia].
    intros i Hi. destruct (nth_error_in_range Hi) as [wi Hwi].
    assert (Hne : ws <> []) by (destruct ws; [cbn in Hi; lia | discriminate]).
    destruct (gradient_step_ok (Hdshape Hne) (Hm Hne) Hwi) as (G & HG & _).
    exists G. exact HG. }
  destruct Hloop as (grads & Hgrads).
  exists grads. split.
  - unfold evaluate. rewrite Hcost. cbn [rbind]. rewrite Hh. cbn [rbind].
    rewrite Hb, Hd. cbn [rbind]. rewrite Hgrads. reflexivity.
  - destruct (gradients_spec Hgrads) as [Hlen Hnth].
    apply Forall2_of_nth_error; [rewrite Hlen, Hws; reflexivity |].
    intros i G wi HG Hwi.
    assert (Hne : ws <> []) by (destruct ws; [destruct i |]; discriminate).
    destruct (gradient_step_ok (Hdshape Hne) (Hm Hne) Hwi) as (G' & HG' & Hs).
    rewrite (layer_gradient_functional (Hnth _ _ HG) HG'). exact Hs.
Qed.

End WellShapedCostfn.

Section WellShapedResults.
Context {R E : Type} {SR : Scalar R} {NC : NetworkClass R E}.
Variables (X y : matrix R) (learn_rate : R) (errfn : ErrorFn R).

Lemma well_shaped_hypothesis (b m : nat) (ws z a : list (matrix R)) :
  well_shaped b m ws z a -> exists h, py_getitem a (-1) = Ok h.
Proof.
  intros Hshape.
  destruct (well_shaped_last Hshape) as (_ & Hla & _ & h & _ & Hh & _).
  exists h. rewrite py_getitem_minus_one, Hla.
  replace (Z.of_nat (S (length ws)) - 1)%Z with (Z.of_nat (length ws)) by lia.
  apply py_getitem_nth, Hh.
Qed.

(** X16. Well-shaped input never meets a dimension mismatch: when the
    forward pass returns [z] and [a] of the shapes of the data model, the
    activation and error gradients return the shapes they are given, the
    network has one layer more than weight matrices and the batch is not
    empty, [costfn] returns the cost of the forward pass with one gradient
    per weight matrix, each of the shape of its matrix, and prints
    nothing. *)
Theorem costfn_succeeds_on_well_shaped (ws : list (matrix R))
    (w : world R E) (z a : list (matrix R)) (cost : R) :
  let nn := with_weights ws (nnet w) in
  let b := if bias nn then 1 else 0 in
  calculateCost nn X y errfn learn_rate = Ok (z, a, cost) ->
  well_shaped b (ncols X) ws z a ->
  length (layers nn) = S (length ws) ->
  (forall layer, In layer (layers nn) -> act_total (activationfn layer)) ->
  err_returns errfn a y ->
  (ws <> [] -> ncols X <> 0) ->
  exists grads,
    create_costfn X y learn_rate errfn true ws w
    = (Ok (CostGrads cost grads), installed ws w)
    /\ Forall2 (fun G wi => shape G = shape wi) grads ws.
Proof.
  intros nn b Hcost Hshape Hlayers Hact Herr Hm.
  destruct (well_shaped_hypothesis Hshape) as [h Hh].
  destruct (@evaluate_succeeds _ _ _ _ X y learn_rate errfn nn ws z a b h
              Hlayers Hact Herr Hshape Hh cost eq_refl eq_refl Hcost Hm)
    as (grads & Hev & Hshapes).
  exists grads. split; [| exact Hshapes].
  rewrite costfn_run. fold nn. rewrite Hev. reflexivity.
Qed.

Lemma length_concat_uniform {A B : Type} (f : A -> list B) (c : nat)
    (l : list A) :
  (forall x, length (f x) = c) -> length (concat (map f l)) = length l * c.
Proof.
  intros Hf. induction l as [| x l IH]; [reflexivity |].
  cbn [map concat length]. rewrite length_app, Hf, IH. lia.
Qed.

Lemma length_flatten (A : matrix R) : length (flatten A) = nrows A * ncols A.
Proof.
  unfold flatten.
  rewrite (length_concat_uniform (c := ncols A)), length_seq; [reflexivity |].
  intros r. rewrite length_map, length_seq. reflexivity.
Qed.

Lemma length_unroll (ms : list (matrix R)) :
  length (unroll ms) = total_size (map shape ms).
Proof.
  unfold unroll. induction ms as [| A ms IH]; [reflexivity |].
  cbn [map concat total_size fold_right shape fst snd].
  rewrite length_app, length_flatten. unfold total_size in IH.
  rewrite IH. reflexivity.
Qed.

Lemma reshape_list_shapes (dims : list (nat * nat)) :
  forall v : list R, map shape (reshape_list v dims) = dims.
Proof.
  induction dims as [| [r c] dims IH]; intros v; [reflexivity |].
  cbn [reshape_list map]. rewrite IH. reflexivity.
Qed.

Lemma Forall2_shapes (grads ws : list (matrix R)) :
  Forall2 (fun G wi => shape G = shape wi) grads ws ->
  map shape grads = map shape ws.
Proof. induction 1; cbn; congruence. Qed.

(** X17. On well-shaped input the adapter returns a gradient vector with
    as many entries as the vector it was called with, as a minimizer
    requires: when [v] fits [dimensions] and the network carrying [v]
    reshaped is well-shaped, the adapter returns the cost of the forward
    pass and a flat gradient of the length of [v]. *)
Theorem adapter_gradient_length (dims : list (nat * nat)) (v : list R)
    (mats : list (matrix R)) (w : world R E) (z a : list (matrix R))
    (cost : R) :
  reshape_vector (np_matrix v) dims = Ok mats ->
  let nn := with_weights mats (nnet w) in
  let b := if bias nn then 1 else 0 in
  calculateCost nn X y errfn learn_rate = Ok (z, a, cost) ->
  well_shaped b (ncols X) mats z a ->
  length (layers nn) = S (length mats) ->
  (forall layer, In layer (layers nn) -> act_total (activationfn layer)) ->
  err_returns errfn a y ->
  (mats <> [] -> ncols X <> 0) ->
  exists g,
    flattened_costfn (create_costfn X y learn_rate errfn true) dims v w
    = (Ok (cost, g), installed mats w)
    /\ length g = length v.
Proof.
  intros Hre nn b Hcost Hshape Hlayers Hact Herr Hm.
  destruct (well_shaped_hypothesis Hshape) as [h Hh].
  destruct (@evaluate_succeeds _ _ _ _ X y learn_rate errfn nn mats z a b h
              Hlayers Hact Herr Hshape Hh cost eq_refl eq_refl Hcost Hm)
    as (grads & Hev & Hshapes).
  exists (unroll grads). split.
  - unfold flattened_costfn, bind, lift, ret. rewrite Hre, costfn_run.
    fold nn. rewrite Hev. cbn [unpack].
    generalize (first_row_unroll grads). unfold unroll_matrices.
    cbn [rbind]. intros ->. reflexivity.
  - rewrite length_unroll, (Forall2_shapes Hshapes).
    unfold reshape_vector in Hre.
    destruct (Nat.eqb_spec (nrows (np_matrix v) * ncols (np_matrix v))
                (total_size dims)) as [Hsize | _]; [| discriminate Hre].
    injection Hre as <-. rewrite reshape_list_shapes, <- Hsize.
    cbn [np_matrix nrows ncols]. lia.
Qed.

End WellShapedResults.

(** ** Runs of the further statements *)

Lemma numerical_gradient_restores_weights_witness :
  snd (fst (gradcheck_run [3%Q])) = [3%Q]
  /\ shape (gradcheck_grad [3%Q]) = (1, 1)
  /\ forall i, i < 1 ->
               central_difference gradcheck_adapter (1 # 100)%Q [3%Q] i
                 (get (gradcheck_grad [3%Q]) i 0).
Proof.
  apply (@numerical_gradient_restores_weights Q unit (list Q) _ _
           gradcheck_adapter (1 # 100)%Q (fun _ => 0%Q) [3%Q]
           (snd (fst (gradcheck_run [3%Q]))) (world_of net1 tt)
           (snd (gradcheck_run [3%Q])) (gradcheck_grad [3%Q])).
  vm_compute. reflexivity.
Defined.

Lemma numerical_gradient_of_cost_witness :
  cost_quotient
    (s_sub (sum_squares [1; (2 + (1 # 100))]%Q)
           (sum_squares [1; (2 - (1 # 100))]%Q))
    (s_mul (s_of_nat 2) (1 # 100)%Q)
  = Ok (get (sum_squares_grad [1; 2]%Q) 1 0).
Proof.
  refine (@numerical_gradient_of_cost Q unit (list Q) _ _
           sum_squares_cost (1 # 100)%Q sum_squares (fun _ => 0%Q) [1; 2]%Q
           (snd (fst (sum_squares_run [1; 2]%Q))) (world_of net1 tt)
           (snd (sum_squares_run [1; 2]%Q)) (sum_squares_grad [1; 2]%Q)
           _ _ 1 _).
  - intros v w. eexists. eexists. reflexivity.
  - vm_compute. reflexivity.
  - cbn. lia.
Defined.

Lemma numerical_gradient_failure_leaves_perturbation_witness :
  exists i,
    i < 2
    /\ (snd (fst (gradcheck_run [1; 2]%Q))
        = array_set i (s_add (nth i [1; 2]%Q s_zero) (1 # 100)%Q) [1; 2]%Q
        \/ snd (fst (gradcheck_run [1; 2]%Q))
           = array_set i (s_sub (nth i [1; 2]%Q s_zero) (1 # 100)%Q)
               [1; 2]%Q).
Proof.
  apply (@numerical_gradient_failure_leaves_perturbation Q unit (list Q) _ _
           gradcheck_adapter (1 # 100)%Q (fun _ => 0%Q) [1; 2]%Q
           (snd (fst (gradcheck_run [1; 2]%Q))) (world_of net1 tt)
           (snd (gradcheck_run [1; 2]%Q))
           (Exn ValueError "total size of new array must be unchanged")).
  vm_compute. reflexivity.
Defined.

Lemma adapter_installs_reshaped_vector_witness :
  gradcheck_adapter [1; 2]%Q (world_of net1 tt)
  = (Raise (Exn ValueError "total size of new array must be unchanged"),
     world_of net1 tt)
  /\ nnet (snd (gradcheck_adapter [7%Q] (world_of net1 tt)))
     = with_weights [mat [[7]]%Q] net1
  /\ ext (snd (gradcheck_adapter [7%Q] (world_of net1 tt))) = tt.
Proof.
  split.
  - apply (proj1 (@adapter_installs_reshaped_vector Q unit _
                    (network_class unit) X1 y1 0%Q squaredError true
                    [(1, 1)] [1; 2]%Q (world_of net1 tt))).
    vm_compute. reflexivity.
  - apply (proj2 (@adapter_installs_reshaped_vector Q unit _
                    (network_class unit) X1 y1 0%Q squaredError true
                    [(1, 1)] [7%Q] (world_of net1 tt))).
    vm_compute. reflexivity.
Defined.

Lemma numerical_gradient_leaves_network_perturbed_witness :
  exists mats,
    reshape_vector
      (np_matrix (array_set 0 (s_sub (nth 0 [3%Q] s_zero) (1 # 100)%Q) [3%Q]))
      [(1, 1)]
    = Ok mats
    /\ weights_of (nnet (snd (gradcheck_run [3%Q]))) = mats.
Proof.
  apply (@numerical_gradient_leaves_network_perturbed Q unit _
           (network_class unit) _ X1 y1 0%Q squaredError [(1, 1)]
           (fun _ => 0%Q) [3%Q] (snd (fst (gradcheck_run [3%Q])))
           (1 # 100)%Q (world_of net1 tt) (snd (gradcheck_run [3%Q]))
           (gradcheck_grad [3%Q])).
  - vm_compute. reflexivity.
  - discriminate.
Defined.

Lemma costfn_cost_agrees_witness :
  create_costfn (NC := network_class unit) X3 y3 1%Q squaredError false W3
    (world_of net3 tt)
  = (Ok (CostOnly cost3), installed W3 (world_of net3 tt)).
Proof.
  apply (@costfn_cost_agrees Q unit _ (network_class unit) X3 y3 1%Q
           squaredError W3 (world_of net3 tt) _ cost3 grads3).
  vm_compute. reflexivity.
Defined.

Lemma costfn_silent_unless_ValueError_witness :
  fst (create_costfn (NC := sum_class) X_empty y_empty 1%Q squaredError true
         W3 (world_of net3 tt))
  = Raise (Exn ZeroDivisionError "float division by zero")
  /\ snd (create_costfn (NC := sum_class) X_empty y_empty 1%Q squaredError
            true W3 (world_of net3 tt))
     = installed W3 (world_of net3 tt).
Proof.
  split; [vm_compute; reflexivity |].
  apply (@costfn_silent_unless_ValueError Q unit _ sum_class X_empty y_empty
           1%Q squaredError true W3 (world_of net3 tt)).
  intros ex Hex. vm_compute in Hex. injection Hex as <-. discriminate.
Defined.

Lemma costfn_empty_batch_witness :
  (exists ex,
      fst (create_costfn (NC := sum_class) X_empty y_empty 1%Q squaredError
             true W3 (world_of net3 tt)) = Raise ex)
  /\ create_costfn (NC := sum_class) X_empty y_empty 1%Q squaredError true W3
       (world_of net3 tt)
     = (Raise (Exn ZeroDivisionError "float division by zero"),
        installed W3 (world_of net3 tt)).
Proof.
  pose proof (@costfn_empty_batch Q unit _ sum_class X_empty y_empty 1%Q
                squaredError W3 (world_of net3 tt) eq_refl) as Hempty.
  cbv zeta in Hempty. destruct Hempty as [Hraise Hzero]; [discriminate |].
  split; [exact Hraise |].
  eapply Hzero.
  - vm_compute. reflexivity.
  - vm_compute. reflexivity.
  - vm_compute. reflexivity.
Defined.

Lemma selection_order_independent_witness :
  let st := fold_left keep_best [r_failed; r_first; r_tie] (None, PosInf) in
  let st' := fold_left keep_best [r_tie; r_failed; r_first] (None, PosInf) in
  (fst st = None <-> fst st' = None)
  /\ float_lt (snd st) (snd st') = false
  /\ float_lt (snd st') (snd st) = false.
Proof.
  apply (@selection_order_independent Q [r_failed; r_first; r_tie]
           [r_tie; r_failed; r_first]).
  apply Permutation_sym.
  change [r_tie; r_failed; r_first] with ([r_tie] ++ [r_failed; r_first]).
  change [r_failed; r_first; r_tie] with ([r_failed; r_first] ++ [r_tie]).
  apply Permutation_app_comm.
Defined.

Lemma more_restarts_never_worsen_witness :
  exists st1 w1,
    restart_loop (NC := replay_class)
      (adapter_of (NC := replay_class) X1 y1 0%Q squaredError
         (world_of net1 [r_failed; r_first; r_tie]))
      replay 1 (None, PosInf) (world_of net1 [r_failed; r_first; r_tie])
    = (Ok st1, w1)
    /\ restart_loop (NC := replay_class)
         (adapter_of (NC := replay_class) X1 y1 0%Q squaredError
            (world_of net1 [r_failed; r_first; r_tie]))
         replay 2 st1 w1
       = (Ok (Some r_first, Finite 2),
          snd (replay_trace [r_failed; r_first; r_tie] 3))
    /\ float_lt (snd st1) (Finite 2) = false
    /\ (fst st1 <> None -> Some r_first <> None).
Proof.
  apply (@more_restarts_never_worsen Q _ _ replay_class replay
           (adapter_of (NC := replay_class) X1 y1 0%Q squaredError
              (world_of net1 [r_failed; r_first; r_tie]))
           1 2 (world_of net1 [r_failed; r_first; r_tie])
           (snd (replay_trace [r_failed; r_first; r_tie] 3))
           (Some r_first, Finite 2)).
  vm_compute. reflexivity.
Defined.



Lemma identity_total : act_total identity.
Proof. intros z. eexists. split; reflexivity. Qed.

Lemma well_shaped_inputs_net3 :
  length (layers (with_weights W3 net3)) = S (length W3)
  /\ (forall layer, In layer (layers (with_weights W3 net3)) ->
                    act_total (activationfn layer))
  /\ err_returns squaredError a3 y3
  /\ well_shaped 1 (ncols X3) W3 z3 a3.
Proof.
  split; [reflexivity |]. split; [| split].
  - intros layer Hin.
    assert (Hl : layer = {| activationfn := identity |}).
    { cbn in Hin. intuition congruence. }
    rewrite Hl. exact identity_total.
  - intros h Hh. vm_compute in Hh. injection Hh as <-.
    eexists. split; vm_compute; reflexivity.
  - cbn. repeat split.
Qed.

Lemma costfn_succeeds_on_well_shaped_witness :
  exists grads,
    create_costfn (NC := network_class unit) X3 y3 1%Q squaredError true W3
      (world_of net3 tt)
    = (Ok (CostGrads cost3 grads), installed W3 (world_of net3 tt))
    /\ Forall2 (fun G wi => shape G = shape wi) grads W3.
Proof.
  destruct well_shaped_inputs_net3 as (Hlayers & Hact & Herr & Hshape).
  apply (@costfn_succeeds_on_well_shaped Q unit _ (network_class unit)
           X3 y3 1%Q squaredError W3 (world_of net3 tt) z3 a3 cost3).
  - vm_compute. reflexivity.
  - exact Hshape.
  - exact Hlayers.
  - exact Hact.
  - exact Herr.
  - intros _. discriminate.
Defined.

Lemma adapter_gradient_length_witness :
  exists g,
    flattened_costfn
      (create_costfn (NC := network_class unit) X3 y3 1%Q squaredError true)
      [(2, 3); (1, 3)] v3 (world_of net3 tt)
    = (Ok (cost3, g), installed W3 (world_of net3 tt))
    /\ length g = length v3.
Proof.
  destruct well_shaped_inputs_net3 as (Hlayers & Hact & Herr & Hshape).
  apply (@adapter_gradient_length Q unit _ (network_class unit)
           X3 y3 1%Q squaredError [(2, 3); (1, 3)] v3 W3 (world_of net3 tt)
           z3 a3 cost3).
  - vm_compute. reflexivity.
  - vm_compute. reflexivity.
  - exact Hshape.
  - exact Hlayers.
  - exact Hact.
  - exact Herr.
  - intros _. discriminate.
Defined.
